(** * Tennis swing analysis front end: the submission workflow

  A shallow embedding of the client side of the application:

  - [Js]         the JavaScript values and operators the pages rely on;
  - [Types]      the analysis contract (the interfaces of the types module);
  - [Axios]      the behaviour of the HTTP library the client is built on;
  - [Client]     [analyzeSwing] and [healthCheck];
  - [UploadPage] the component state, [handleSubmit], the rendered view and
                 the events a user or the network can cause;
  - [ResultPage] the result view with its fallback;
  - [App]        the routing table.

  Definitions come first, the properties of the workflow after them. *)

From Stdlib Require Import String Ascii List ZArith Bool Lia.
From Stdlib Require Import DecimalString PrimFloat.
Import ListNotations.

Set Warnings "-inexact-float,-register-all".

Local Open Scope string_scope.
Local Open Scope Z_scope.

(* ================================================================== *)
(** ** JavaScript values *)
(* ================================================================== *)

Module Js.

(** A run-time value: what [JSON.parse] can produce, plus [undefined].
    An object is the list of its own properties in insertion order. *)
Inductive JsVal : Type :=
| JUndefined
| JNull
| JBool (b : bool)
| JNum (x : float)
| JStr (s : string)
| JArr (items : list JsVal)
| JObj (props : list (string * JsVal)).

(** What a [throw] or a rejected promise carries ([err: unknown]): an
    instance of [Error] with its message and its other own properties, or
    any other value. *)
Inductive Thrown : Type :=
| ErrorObj (message : string) (props : list (string * JsVal))
| Value (v : JsVal).

(** Completion of an expression or a promise. *)
Inductive Exc (A : Type) : Type :=
| Ret (a : A)
| Raise (e : Thrown).
Arguments Ret {A} a.
Arguments Raise {A} e.

Definition TypeError (msg : string) : Thrown := ErrorObj msg [].

(** First own property called [k]. *)
Fixpoint lookup (k : string) (props : list (string * JsVal)) : option JsVal :=
  match props with
  | [] => None
  | (k', v) :: rest => if String.eqb k k' then Some v else lookup k rest
  end.

Definition has_key (k : string) (props : list (string * JsVal)) : bool :=
  match lookup k props with Some _ => true | None => false end.

(** [v === null || v === undefined] *)
Definition nullish (v : JsVal) : bool :=
  match v with
  | JUndefined | JNull => true
  | _ => false
  end.

(** ToBoolean: [false], [0], [-0], [NaN], the empty string, [null] and
    [undefined] are falsy. *)
Definition truthy (v : JsVal) : bool :=
  match v with
  | JUndefined | JNull => false
  | JBool b => b
  | JNum x => negb (PrimFloat.is_zero x || PrimFloat.is_nan x)
  | JStr s => negb (String.eqb s "")
  | JArr _ | JObj _ => true
  end.

(** [typeof v === "object"] (true of [null] as well). *)
Definition typeof_object (v : JsVal) : bool :=
  match v with
  | JNull | JArr _ | JObj _ => true
  | _ => false
  end.

(** [v.k]: a TypeError on [null] and [undefined].  The pages only read the
    names [response], [data], [detail], [result], [userVideoUrl] and the
    fields of the contract, none of which a primitive or an array
    inherits, so those read as [undefined] there. *)
Definition get_prop (v : JsVal) (k : string) : Exc JsVal :=
  match v with
  | JUndefined | JNull =>
      Raise (TypeError ("Cannot read properties of null or undefined (reading '" ++ k ++ "')"))
  | JObj props =>
      Ret (match lookup k props with Some x => x | None => JUndefined end)
  | _ => Ret JUndefined
  end.

(** [v?.k]: [undefined] when [v] is nullish, [v.k] otherwise. *)
Definition opt_chain (v : JsVal) (k : string) : JsVal :=
  match v with
  | JObj props => match lookup k props with Some x => x | None => JUndefined end
  | _ => JUndefined
  end.

(** [a ?? b] *)
Definition coalesce (a b : JsVal) : JsVal := if nullish a then b else a.

(** [k in v]: a TypeError when [v] is not an object. *)
Definition js_in (k : string) (v : JsVal) : Exc bool :=
  match v with
  | JObj props => Ret (has_key k props)
  | JArr _ => Ret false
  | _ => Raise (TypeError ("Cannot use 'in' operator to search for '" ++ k ++ "'"))
  end.

(** The same operators on a caught value. *)
Definition instanceof_Error (err : Thrown) : bool :=
  match err with ErrorObj _ _ => true | Value _ => false end.

Definition thrown_typeof_object (err : Thrown) : bool :=
  match err with ErrorObj _ _ => true | Value v => typeof_object v end.

Definition thrown_not_null (err : Thrown) : bool :=
  match err with Value JNull => false | _ => true end.

Definition thrown_in (k : string) (err : Thrown) : Exc bool :=
  match err with
  | ErrorObj _ props => Ret (String.eqb k "message" || has_key k props)
  | Value v => js_in k v
  end.

Definition thrown_get (err : Thrown) (k : string) : Exc JsVal :=
  match err with
  | ErrorObj m props =>
      Ret (if String.eqb k "message" then JStr m
           else match lookup k props with Some x => x | None => JUndefined end)
  | Value v => get_prop v k
  end.

(** Sequencing of expressions that may throw. *)
Definition and_then {A B : Type} (c : Exc A) (k : A -> Exc B) : Exc B :=
  match c with
  | Ret a => k a
  | Raise e => Raise e
  end.

(** Decimal rendering of an integer, as string concatenation does it. *)
Definition show_int (n : Z) : string := NilZero.string_of_int (Z.to_int n).

End Js.
Import Js.

(* ================================================================== *)
(** ** The analysis contract *)
(* ================================================================== *)

Module Types.

(** [export type Hand = "right" | "left"] *)
Inductive Hand : Type := Right | Left.

Definition hand_string (h : Hand) : string :=
  match h with Right => "right" | Left => "left" end.

(** [Record<string, number>] *)
Definition NumberRecord : Type := list (string * float).

Record PlayerSimilarity : Type := {
  player : string;
  overall_similarity : float;
  body_groups : NumberRecord
}.

Inductive TipType : Type := strength | improvement.

Record CoachingTip : Type := {
  type : TipType;
  body_part : string;
  message : string
}.

Record SwingPhases : Type := {
  preparation : float * float;
  forward_swing : float * float;
  contact : float;
  follow_through : float * float;
  recovery : float * float
}.

(** [(Record<string, number>[] | null)[] | null]: the whole sequence may be
    [null], and so may each frame. *)
Definition Frame : Type := list NumberRecord.
Definition Landmarks : Type := option (list (option Frame)).

Record AnalysisResponse : Type := {
  most_similar_player : string;
  similarities : list PlayerSimilarity;
  coaching : list CoachingTip;
  phases : SwingPhases;
  landmarks : Landmarks;
  reference_video_url : option string
}.

(** *** Decoding a payload

    The repository has no decoder: the interfaces are erased when the
    program is compiled and the client hands on [response.data] as it is.
    The decoder the specification asks of an implementation (a payload
    missing a required field is rejected at decode time, the three levels of
    [landmarks] are kept apart) is modelled here from the specification, at
    the fields and types the interfaces above declare: a field without [?]
    has to be there, a [| null] admits [null]. *)

Definition obind {A B : Type} (o : option A) (k : A -> option B) : option B :=
  match o with Some a => k a | None => None end.

Notation "'let?' x ':=' e 'in' k" := (obind e (fun x => k))
  (at level 10, x name, e at level 100, k at level 200).

Fixpoint traverse {A B : Type} (f : A -> option B) (l : list A) : option (list B) :=
  match l with
  | [] => Some []
  | a :: rest =>
      let? b := f a in
      let? bs := traverse f rest in
      Some (b :: bs)
  end.

(** Modelled from the spec: the decoder of a [string] field, missing
    from the repository; anything but a string is rejected. *)
Definition as_string (v : JsVal) : option string :=
  match v with JStr s => Some s | _ => None end.

(** Modelled from the spec: the decoder of a [number] field, missing
    from the repository; anything but a number is rejected. *)
Definition as_number (v : JsVal) : option float :=
  match v with JNum x => Some x | _ => None end.

(** Modelled from the spec: the decoder of an array field, missing from
    the repository; every element has to decode. *)
Definition as_array {A : Type} (elem : JsVal -> option A) (v : JsVal) : option (list A) :=
  match v with JArr items => traverse elem items | _ => None end.

(** Modelled from the spec: the decoder of a [T | null] field, missing
    from the repository; [null] is kept apart from every decoded value. *)
Definition as_nullable {A : Type} (inner : JsVal -> option A) (v : JsVal) : option (option A) :=
  match v with
  | JNull => Some None
  | _ => option_map Some (inner v)
  end.

(** Modelled from the spec: the decoder of one entry of a
    [Record<string, number>], missing from the repository. *)
Definition as_entry (kv : string * JsVal) : option (string * float) :=
  let? x := as_number (snd kv) in Some (fst kv, x).

(** Modelled from the spec: the decoder of a [Record<string, number>],
    missing from the repository; every value has to be a number. *)
Definition as_NumberRecord (v : JsVal) : option NumberRecord :=
  match v with JObj props => traverse as_entry props | _ => None end.

(** Modelled from the spec: the decoder of a [[number, number]] time
    pair, missing from the repository. *)
Definition as_pair (v : JsVal) : option (float * float) :=
  match v with
  | JArr [a; b] =>
      let? x := as_number a in
      let? y := as_number b in
      Some (x, y)
  | _ => None
  end.

(** Modelled from the spec: the decoder of a required field, missing from
    the repository; the property has to be present and of its type. *)
Definition field {A : Type} (k : string) (elem : JsVal -> option A)
    (props : list (string * JsVal)) : option A :=
  let? v := lookup k props in elem v.

(** Modelled from the spec: the decoder of a Player Similarity, missing
    from the repository; its three fields are required. *)
Definition as_PlayerSimilarity (v : JsVal) : option PlayerSimilarity :=
  match v with
  | JObj props =>
      let? p := field "player" as_string props in
      let? o := field "overall_similarity" as_number props in
      let? g := field "body_groups" as_NumberRecord props in
      Some {| player := p; overall_similarity := o; body_groups := g |}
  | _ => None
  end.

(** Modelled from the spec: the decoder of the kind of a Coaching Tip,
    missing from the repository; one of the two kinds. *)
Definition as_TipType (v : JsVal) : option TipType :=
  match v with
  | JStr s =>
      if String.eqb s "strength" then Some strength
      else if String.eqb s "improvement" then Some improvement
      else None
  | _ => None
  end.

(** Modelled from the spec: the decoder of a Coaching Tip, missing from
    the repository; its three fields are required. *)
Definition as_CoachingTip (v : JsVal) : option CoachingTip :=
  match v with
  | JObj props =>
      let? t := field "type" as_TipType props in
      let? b := field "body_part" as_string props in
      let? m := field "message" as_string props in
      Some {| type := t; body_part := b; message := m |}
  | _ => None
  end.

(** Modelled from the spec: the decoder of the Swing Phases, missing
    from the repository; four time pairs and the instant of contact, all
    required. *)
Definition as_SwingPhases (v : JsVal) : option SwingPhases :=
  match v with
  | JObj props =>
      let? p := field "preparation" as_pair props in
      let? f := field "forward_swing" as_pair props in
      let? c := field "contact" as_number props in
      let? t := field "follow_through" as_pair props in
      let? r := field "recovery" as_pair props in
      Some {| preparation := p; forward_swing := f; contact := c;
              follow_through := t; recovery := r |}
  | _ => None
  end.

(** Modelled from the spec: the decoder of one present frame of
    Landmarks, missing from the repository. *)
Definition as_Frame : JsVal -> option Frame := as_array as_NumberRecord.

(** Modelled from the spec: the decoder of Landmarks, missing from the
    repository; an explicit option at each level: the whole sequence may
    be [null], and so may each frame. *)
Definition as_Landmarks : JsVal -> option Landmarks :=
  as_nullable (as_array (as_nullable as_Frame)).

(** Modelled from the spec: the decoder of an Analysis Response, missing
    from the repository; a payload missing a required field is rejected. *)
Definition as_AnalysisResponse (v : JsVal) : option AnalysisResponse :=
  match v with
  | JObj props =>
      let? m := field "most_similar_player" as_string props in
      let? s := field "similarities" (as_array as_PlayerSimilarity) props in
      let? c := field "coaching" (as_array as_CoachingTip) props in
      let? p := field "phases" as_SwingPhases props in
      let? l := field "landmarks" as_Landmarks props in
      let? u := field "reference_video_url" (as_nullable as_string) props in
      Some {| most_similar_player := m; similarities := s; coaching := c;
              phases := p; landmarks := l; reference_video_url := u |}
  | _ => None
  end.

(** Modelled from the spec: structural validity of a payload, which the
    repository never checks; every required field present and of its
    declared type. *)
Definition is_AnalysisResponse (v : JsVal) : bool :=
  match as_AnalysisResponse v with Some _ => true | None => false end.

(** *** Encoding a response

    The repository has no encoder either; the one of the round trip the
    specification speaks of is modelled from it, field by field. *)

(** Modelled from the spec: the encoder of a [T | null] field, missing
    from the repository; the absent case is written as [null]. *)
Definition of_nullable {A : Type} (inner : A -> JsVal) (o : option A) : JsVal :=
  match o with Some a => inner a | None => JNull end.

(** Modelled from the spec: the encoder of a [Record<string, number>],
    missing from the repository. *)
Definition of_NumberRecord (r : NumberRecord) : JsVal :=
  JObj (map (fun kv => (fst kv, JNum (snd kv))) r).

(** Modelled from the spec: the encoder of a time pair, missing from the
    repository. *)
Definition of_pair (p : float * float) : JsVal :=
  JArr [JNum (fst p); JNum (snd p)].

(** Modelled from the spec: the encoder of a Player Similarity, missing
    from the repository. *)
Definition of_PlayerSimilarity (s : PlayerSimilarity) : JsVal :=
  JObj [("player", JStr (player s));
        ("overall_similarity", JNum (overall_similarity s));
        ("body_groups", of_NumberRecord (body_groups s))].

(** Modelled from the spec: the encoder of the kind of a Coaching Tip,
    missing from the repository. *)
Definition of_TipType (t : TipType) : JsVal :=
  match t with strength => JStr "strength" | improvement => JStr "improvement" end.

(** Modelled from the spec: the encoder of a Coaching Tip, missing from
    the repository. *)
Definition of_CoachingTip (t : CoachingTip) : JsVal :=
  JObj [("type", of_TipType (type t));
        ("body_part", JStr (body_part t));
        ("message", JStr (message t))].

(** Modelled from the spec: the encoder of the Swing Phases, missing
    from the repository. *)
Definition of_SwingPhases (p : SwingPhases) : JsVal :=
  JObj [("preparation", of_pair (preparation p));
        ("forward_swing", of_pair (forward_swing p));
        ("contact", JNum (contact p));
        ("follow_through", of_pair (follow_through p));
        ("recovery", of_pair (recovery p))].

(** Modelled from the spec: the encoder of one present frame of
    Landmarks, missing from the repository. *)
Definition of_Frame (f : Frame) : JsVal := JArr (map of_NumberRecord f).

(** Modelled from the spec: the encoder of Landmarks, missing from the
    repository; each level of absence is written as its own [null]. *)
Definition of_Landmarks (l : Landmarks) : JsVal :=
  of_nullable (fun frames => JArr (map (of_nullable of_Frame) frames)) l.

(** Modelled from the spec: the encoder of an Analysis Response, missing
    from the repository; the six fields in the order of the interface. *)
Definition of_AnalysisResponse (r : AnalysisResponse) : JsVal :=
  JObj [("most_similar_player", JStr (most_similar_player r));
        ("similarities", JArr (map of_PlayerSimilarity (similarities r)));
        ("coaching", JArr (map of_CoachingTip (coaching r)));
        ("phases", of_SwingPhases (phases r));
        ("landmarks", of_Landmarks (landmarks r));
        ("reference_video_url", of_nullable JStr (reference_video_url r))].

End Types.
Import Types.

(* ================================================================== *)
(** ** The HTTP library *)
(* ================================================================== *)

(** The client is written against axios, which is not part of the
    repository.  This module fixes the part of its documented behaviour the
    client depends on: how a request configuration is built from the
    instance defaults, which statuses fulfil the promise ([validateStatus],
    2xx by default), what a rejection carries, and that [timeout: 0], the
    default, means no timeout. *)

Module Axios.

Inductive Method : Type := GET | POST.

(** A browser [File]. *)
Record File : Type := {
  file_name : string;
  file_bytes : list Byte.byte
}.

(** An entry of a [FormData]. *)
Inductive FormValue : Type :=
| FileField (f : File)
| TextField (s : string).

Definition FormData : Type := list (string * FormValue).

Record RequestConfig : Type := {
  method : Method;
  baseURL : string;
  url : string;
  headers : list (string * string);
  timeout : Z;
  data : option FormData
}.

(** What the caller may pass per request; what it leaves out comes from the
    instance. *)
Record Options : Type := {
  opt_headers : list (string * string);
  opt_timeout : option Z
}.

Definition no_options : Options := {| opt_headers := []; opt_timeout := None |}.

(** An instance made by [axios.create]: its defaults. *)
Record Instance : Type := {
  default_baseURL : string;
  default_timeout : Z
}.

(** [axios.create({ baseURL })]: the library default for [timeout] is [0]. *)
Definition create (base : string) : Instance :=
  {| default_baseURL := base; default_timeout := 0 |}.

Definition merge (i : Instance) (m : Method) (u : string) (d : option FormData)
    (o : Options) : RequestConfig :=
  {| method := m;
     baseURL := default_baseURL i;
     url := u;
     headers := opt_headers o;
     timeout := match opt_timeout o with Some t => t | None => default_timeout i end;
     data := d |}.

(** What the network does with one request: when the exchange ends, in
    milliseconds after the request was sent ([None]: it never does), and how. *)
Inductive Reply : Type :=
| HttpReply (status : Z) (body : JsVal)
| ConnectionFailure.

Record Network : Type := {
  latency : option Z;
  reply : Reply
}.

(** How a promise ends, if it does. *)
Inductive Outcome (A : Type) : Type :=
| Resolved (a : A)
| Rejected (e : Thrown)
| Pending.
Arguments Resolved {A} a.
Arguments Rejected {A} e.
Arguments Pending {A}.

(** The rest of an [async] function after an [await]: a throw there
    rejects the promise the function returned. *)
Definition then_ {A B : Type} (o : Outcome A) (f : A -> Exc B) : Outcome B :=
  match o with
  | Resolved a => match f a with Ret b => Resolved b | Raise e => Rejected e end
  | Rejected e => Rejected e
  | Pending => Pending
  end.

(** The response object.  Of its properties only [data] is modelled: the
    body as the default [transformResponse] leaves it (parsed JSON, or the
    raw text when it is not JSON). *)
Definition response_object (body : JsVal) : JsVal :=
  JObj [("data", body)].

Definition timeout_error (cfg : RequestConfig) : Thrown :=
  ErrorObj ("timeout of " ++ show_int (timeout cfg) ++ "ms exceeded")
           [("code", JStr "ECONNABORTED")].

Definition network_error : Thrown :=
  ErrorObj "Network Error" [("code", JStr "ERR_NETWORK")].

Definition status_error (status : Z) (body : JsVal) : Thrown :=
  ErrorObj ("Request failed with status code " ++ show_int status)
           [("response", response_object body)].

(** [validateStatus] *)
Definition validateStatus (status : Z) : bool :=
  (200 <=? status) && (status <? 300).

(** Does the timer fire before the exchange ends? *)
Definition timeout_elapses (cfg : RequestConfig) (net : Network) : bool :=
  (0 <? timeout cfg) &&
  match latency net with
  | Some t => timeout cfg <=? t
  | None => true
  end.

Definition request (cfg : RequestConfig) (net : Network) : Outcome JsVal :=
  if timeout_elapses cfg net then Rejected (timeout_error cfg)
  else
    match latency net with
    | None => Pending
    | Some _ =>
        match reply net with
        | ConnectionFailure => Rejected network_error
        | HttpReply status body =>
            if validateStatus status
            then Resolved (response_object body)
            else Rejected (status_error status body)
        end
    end.

Definition post (i : Instance) (u : string) (d : FormData) (o : Options) : RequestConfig :=
  merge i POST u (Some d) o.

Definition get (i : Instance) (u : string) : RequestConfig :=
  merge i GET u None no_options.

End Axios.
Import Axios.

(* ================================================================== *)
(** ** The remote analysis client *)
(* ================================================================== *)

Module Client.

(** [const api = axios.create({ baseURL: "/api" })] *)
Definition api : Instance := Axios.create "/api".

(** The request [analyzeSwing] builds:

    [formData.append("video", videoFile); formData.append("hand", hand);
     api.post("/analyze", formData, { headers: ..., timeout: 300000 })] *)
Definition analyzeSwing_request (videoFile : File) (hand : Hand) : RequestConfig :=
  let formData := [("video", FileField videoFile);
                   ("hand", TextField (hand_string hand))] in
  Axios.post api "/analyze" formData
    {| opt_headers := [("Content-Type", "multipart/form-data")];
       opt_timeout := Some 300000 |}.

(** [return response.data] *)
Definition response_data (response : JsVal) : Exc JsVal := get_prop response "data".

Definition analyzeSwing (videoFile : File) (hand : Hand) (net : Network) : Outcome JsVal :=
  then_ (Axios.request (analyzeSwing_request videoFile hand) net) response_data.

(** [api.get("/health")] *)
Definition healthCheck_request : RequestConfig := Axios.get api "/health".

Definition healthCheck (net : Network) : Outcome JsVal :=
  then_ (Axios.request healthCheck_request net) response_data.

End Client.
Import Client.

(* ================================================================== *)
(** ** The upload page *)
(* ================================================================== *)

Module UploadPage.

(** The four [useState] cells of the component. *)
Record State : Type := {
  file : option File;
  hand : Hand;
  isLoading : bool;
  error : JsVal
}.

(** [useState(null)], [useState("right")], [useState(false)], [useState(null)] *)
Definition initial_state : State :=
  {| file := None; hand := Right; isLoading := false; error := JNull |}.

(** A call of [navigate(to, { state })]. *)
Record Navigation : Type := {
  to : string;
  nav_state : JsVal
}.

(** Everything the page can change:
    - [ui]: the component state;
    - [requests]: the network requests issued so far, oldest first;
    - [inflight]: the calls of [handleSubmit] suspended at their [await],
      each with the file and hand it closed over;
    - [objectUrls]: the blobs registered with [URL.createObjectURL];
    - [navigation]: the navigation away from the page, once it happened. *)
Record World : Type := {
  ui : State;
  requests : list RequestConfig;
  inflight : list (File * Hand);
  objectUrls : list File;
  navigation : option Navigation
}.

Definition initial_world : World :=
  {| ui := initial_state; requests := []; inflight := [];
     objectUrls := []; navigation := None |}.

(** *** Statements with effects and exceptions

    A statement changes the world and completes normally or throws; what it
    changed before throwing stays changed. *)
Definition M (A : Type) : Type := World -> Exc A * World.

Definition ret {A : Type} (a : A) : M A := fun w => (Ret a, w).

Definition bind {A B : Type} (m : M A) (k : A -> M B) : M B :=
  fun w =>
    match m w with
    | (Ret a, w') => k a w'
    | (Raise e, w') => (Raise e, w')
    end.

Definition lift {A : Type} (c : Exc A) : M A := fun w => (c, w).

Local Notation "x <- c1 ;; c2" := (bind c1 (fun x => c2))
  (at level 61, c1 at next level, right associativity).
Local Notation "c1 ;; c2" := (bind c1 (fun _ => c2))
  (at level 61, right associativity).

(** [try { body } catch (err) { handler }] *)
Definition try_catch {A : Type} (body : M A) (handler : Thrown -> M A) : M A :=
  fun w =>
    match body w with
    | (Ret a, w') => (Ret a, w')
    | (Raise e, w') => handler e w'
    end.

(** [try { body } finally { finalizer }]: the finalizer runs either way and
    the completion of the body stands unless the finalizer throws. *)
Definition try_finally {A : Type} (body : M A) (finalizer : M unit) : M A :=
  fun w =>
    match body w with
    | (r, w') =>
        match finalizer w' with
        | (Ret _, w'') => (r, w'')
        | (Raise e, w'') => (Raise e, w'')
        end
    end.

Definition modify_ui (f : State -> State) : M unit :=
  fun w =>
    (Ret tt, {| ui := f (ui w); requests := requests w; inflight := inflight w;
                objectUrls := objectUrls w; navigation := navigation w |}).

Definition setFile (f : option File) : M unit :=
  modify_ui (fun s => {| file := f; hand := hand s;
                         isLoading := isLoading s; error := error s |}).

Definition setHand (h : Hand) : M unit :=
  modify_ui (fun s => {| file := file s; hand := h;
                         isLoading := isLoading s; error := error s |}).

Definition setIsLoading (b : bool) : M unit :=
  modify_ui (fun s => {| file := file s; hand := hand s;
                         isLoading := b; error := error s |}).

Definition setError (e : JsVal) : M unit :=
  modify_ui (fun s => {| file := file s; hand := hand s;
                         isLoading := isLoading s; error := e |}).

(** [URL.createObjectURL(file)]: the browser registers the blob and mints a
    URL no earlier call returned; the position in the registry stands for
    the unique part. *)
Definition createObjectURL (f : File) : M string :=
  fun w =>
    (Ret ("blob:" ++ show_int (Z.of_nat (length (objectUrls w)))),
     {| ui := ui w; requests := requests w; inflight := inflight w;
        objectUrls := objectUrls w ++ [f]; navigation := navigation w |}).

(** [navigate(to, { state })] *)
Definition navigate (path : string) (state : JsVal) : M unit :=
  fun w =>
    (Ret tt, {| ui := ui w; requests := requests w; inflight := inflight w;
                objectUrls := objectUrls w;
                navigation := Some {| to := path; nav_state := state |} |}).

(** Calling [analyzeSwing(file, hand)] and suspending at the [await]: the
    request goes out and the caller waits for the promise to settle. *)
Definition await_analyzeSwing (f : File) (h : Hand) : M unit :=
  fun w =>
    (Ret tt, {| ui := ui w;
                requests := requests w ++ [analyzeSwing_request f h];
                inflight := inflight w ++ [(f, h)];
                objectUrls := objectUrls w; navigation := navigation w |}).

Definition generic_message : string := "Something went wrong. Please try again.".

(** The message the [catch] block computes:

    [let message = "Something went wrong. Please try again.";
     if (err instanceof Error) message = err.message;
     if (typeof err === "object" && err !== null && "response" in err)
       message = axiosErr.response?.data?.detail ?? message;] *)
Definition catch_message (err : Thrown) : M JsVal :=
  let message := JStr generic_message in
  message <- (if instanceof_Error err
              then lift (thrown_get err "message")
              else ret message) ;;
  has_response <- (if thrown_typeof_object err
                   then if thrown_not_null err
                        then lift (thrown_in "response" err)
                        else ret false
                   else ret false) ;;
  if (has_response : bool)
  then
    response <- lift (thrown_get err "response") ;;
    ret (coalesce (opt_chain (opt_chain response "data") "detail") message)
  else ret message.

(** [handleSubmit] up to its [await]:

    [if (!file) return;
     setIsLoading(true); setError(null);
     try { const result = await analyzeSwing(file, hand); ...] *)
Definition handleSubmit : M unit :=
  fun w =>
    match file (ui w) with
    | None => ret tt w
    | Some f =>
        (setIsLoading true ;;
         setError JNull ;;
         await_analyzeSwing f (hand (ui w))) w
    end.

(** [handleSubmit] from the [await] on, given how the promise of
    [analyzeSwing] settled:

    [  const videoUrl = URL.createObjectURL(file);
       navigate("/results", { state: { result, userVideoUrl: videoUrl } });
     } catch (err) { ...; setError(message); }
     finally { setIsLoading(false); }] *)
Definition handleSubmit_resume (f : File) (settled : Exc JsVal) : M unit :=
  try_finally
    (try_catch
       (result <- lift settled ;;
        videoUrl <- createObjectURL f ;;
        navigate "/results"
          (JObj [("result", result); ("userVideoUrl", JStr videoUrl)]))
       (fun err =>
          message <- catch_message err ;;
          setError message))
    (setIsLoading false).

(** *** What the component renders *)

Inductive View : Type :=
| LoadingState
| Form (uploader_file : option File)
       (error_message : option JsVal)
       (options_hand : Hand)
       (isDisabled : bool)
       (options_isLoading : bool).

(** [if (isLoading) return <LoadingState />;] and otherwise the uploader,
    [{error && <ErrorMessage ... />}] and the options. *)
Definition render (s : State) : View :=
  if isLoading s then LoadingState
  else Form (file s)
            (if truthy (error s) then Some (error s) else None)
            (hand s)
            (match file s with Some _ => false | None => true end)
            (isLoading s).

(** The callbacks the rendered elements are given. *)
Inductive Callback : Type :=
| onFileChange (f : option File)
| onHandChange (h : Hand)
| onSubmit
| onRetry.

Definition callback (c : Callback) : M unit :=
  match c with
  | onFileChange f => setFile f
  | onHandChange h => setHand h
  | onSubmit => handleSubmit
  | onRetry => setError JNull
  end.

(** A callback can only be invoked through an element that was rendered
    with it.  The child components are not modelled: each may invoke any
    callback it is given, at any time and with any argument.  The uploader
    is given [setFile], the options [setHand] and [handleSubmit], the error
    message, rendered when [error] is truthy, the retry callback;
    [<LoadingState />] is given none. *)
Definition offers (v : View) (c : Callback) : bool :=
  match v with
  | LoadingState => false
  | Form _ shown _ _ _ =>
      match c with
      | onRetry => match shown with Some _ => true | None => false end
      | _ => true
      end
  end.

Inductive Event : Type :=
| User (c : Callback)
| Settle (i : nat) (net : Network).

Fixpoint remove_nth {A : Type} (i : nat) (l : list A) : list A :=
  match l, i with
  | [], _ => []
  | _ :: rest, O => rest
  | a :: rest, S j => a :: remove_nth j rest
  end.

Definition resume_nth (i : nat) (w : World) : World :=
  {| ui := ui w; requests := requests w; inflight := remove_nth i (inflight w);
     objectUrls := objectUrls w; navigation := navigation w |}.

(** The [i]-th suspended call resumes once its request has an outcome: how
    [handleSubmit] then completes, and the world it leaves. *)
Definition settle (i : nat) (net : Network) (w : World) : option (Exc unit * World) :=
  match nth_error (inflight w) i with
  | None => None
  | Some (f, h) =>
      match analyzeSwing f h net with
      | Resolved result => Some (handleSubmit_resume f (Ret result) (resume_nth i w))
      | Rejected err => Some (handleSubmit_resume f (Raise err) (resume_nth i w))
      | Pending => None
      end
  end.

(** The component is rendered again after every change of its state, so a
    user always acts on the view of the current state.  That holds after
    [navigate] as well: the call only asks for the route change, and
    [handleSubmit] goes on to reset [isLoading], upon which the form is
    rendered once more, with its callbacks, before the page is replaced.
    When the page is taken away is not modelled: its callbacks stay
    available. *)
Definition step (ev : Event) (w : World) : World :=
  match ev with
  | User c =>
      if offers (render (ui w)) c then snd (callback c w) else w
  | Settle i net =>
      match settle i net w with
      | Some (_, w') => w'
      | None => w
      end
  end.

Definition run (evs : list Event) (w : World) : World :=
  fold_left (fun w ev => step ev w) evs w.

Inductive reachable : World -> Prop :=
| reachable_initial : reachable initial_world
| reachable_step ev w : reachable w -> reachable (step ev w).

(** The states of the submission workflow, read off the world. *)
Inductive Phase : Type :=
| Idle
| Submitting
| Succeeded (response : JsVal) (preview : JsVal)
| Failed (message : JsVal).

Definition phase (w : World) : Phase :=
  match navigation w with
  | Some n =>
      Succeeded (opt_chain (nav_state n) "result")
                (opt_chain (nav_state n) "userVideoUrl")
  | None =>
      if isLoading (ui w) then Submitting
      else match error (ui w) with
           | JNull => Idle
           | m => Failed m
           end
  end.

End UploadPage.
Import UploadPage.

(* ================================================================== *)
(** ** The result page *)
(* ================================================================== *)

Module ResultPage.

Local Notation "x <- c1 ;; c2" := (and_then c1 (fun x => c2))
  (at level 61, c1 at next level, right associativity).

(** A button whose [onClick] is [() => navigate(target)]. *)
Record Button : Type := {
  label : string;
  target : string
}.

(** What the component returns: the fallback, or the result with the props
    it hands to the presentation components. *)
Inductive View : Type :=
| NoResults (text : string) (button : Button)
| Results (back : Button)
          (similarities mostSimilarPlayer : JsVal)
          (userVideoUrl referenceVideoUrl : JsVal)
          (coaching : JsVal).

Definition fallback : View :=
  NoResults "No analysis results found."
            {| label := "Upload a Video"; target := "/" |}.

(** [const state = location.state as LocationState | null;
     if (!state?.result) return (fallback);
     const { result, userVideoUrl } = state; ...]

    The cast checks nothing, so [location.state] is taken as any value. *)
Definition ResultPage (location_state : JsVal) : Exc View :=
  let state := location_state in
  if negb (truthy (opt_chain state "result")) then Ret fallback
  else
    result <- get_prop state "result" ;;
    userVideoUrl <- get_prop state "userVideoUrl" ;;
    similarities <- get_prop result "similarities" ;;
    most_similar_player <- get_prop result "most_similar_player" ;;
    reference_video_url <- get_prop result "reference_video_url" ;;
    coaching <- get_prop result "coaching" ;;
    Ret (Results {| label := "Analyze another swing"; target := "/" |}
                 similarities most_similar_player
                 userVideoUrl reference_video_url
                 coaching).

End ResultPage.

(* ================================================================== *)
(** ** Routing *)
(* ================================================================== *)

Module App.

Inductive Page : Type := UploadPageElement | ResultPageElement.

(** [<Route path="/" element={<UploadPage />} />
     <Route path="/results" element={<ResultPage />} />] *)
Definition Routes (path : string) : option Page :=
  if String.eqb path "/" then Some UploadPageElement
  else if String.eqb path "/results" then Some ResultPageElement
  else None.

End App.

(* ================================================================== *)
(** * Sample data and the notions the properties are stated with *)
(* ================================================================== *)

(** A video to submit. *)
Definition swing_file : File :=
  {| file_name := "swing.mp4"; file_bytes := [] |}.

(** The response of the success scenario: complete, with [landmarks: null]. *)
Definition federer_response : JsVal :=
  JObj [("most_similar_player", JStr "Federer");
        ("similarities",
         JArr [JObj [("player", JStr "Federer");
                     ("overall_similarity", JNum 0.92%float);
                     ("body_groups", JObj [("arm", JNum 0.9%float)])]]);
        ("coaching",
         JArr [JObj [("type", JStr "strength");
                     ("body_part", JStr "hip");
                     ("message", JStr "Good rotation")]]);
        ("phases",
         JObj [("preparation", JArr [JNum 0%float; JNum 1%float]);
               ("forward_swing", JArr [JNum 1%float; JNum 2%float]);
               ("contact", JNum 2%float);
               ("follow_through", JArr [JNum 2%float; JNum 3%float]);
               ("recovery", JArr [JNum 3%float; JNum 4%float])]);
        ("landmarks", JNull);
        ("reference_video_url", JStr "https://...")].

(** What the first testable property asks of an outcome of [analyzeSwing]:
    a structurally valid response, or an error with a message. *)
Definition valid_or_failed (o : Outcome JsVal) : Prop :=
  (exists v, o = Resolved v /\ is_AnalysisResponse v = true) \/
  (exists m props, o = Rejected (ErrorObj m props) /\ m <> "").

(** "Waits up to [ms]": a call whose exchange is not over after [ms] has
    failed with an error. *)
Definition bounded_wait (ms : Z) (call : Network -> Outcome JsVal) : Prop :=
  forall net,
    match latency net with Some t => ms <= t | None => True end ->
    exists m props, call net = Rejected (ErrorObj m props).

(** The component state once [handleSubmit] is through: [isLoading] reset,
    [error] as given, the selection as it was. *)
Definition loaded (s : State) (e : JsVal) : State :=
  {| file := file s; hand := hand s; isLoading := false; error := e |}.

(** The page with [swing.mp4] selected and submitted, waiting for the
    service. *)
Definition submitted : World :=
  run [User (onFileChange (Some swing_file)); User onSubmit] initial_world.

(** What C2 asks of the world a reply with a failure status and [body]
    leaves: the [detail] string when there is one, the generic message
    otherwise. *)
Definition detail_or_generic (body : JsVal) (w : World) : Prop :=
  match opt_chain body "detail" with
  | JStr d => phase w = Failed (JStr d)
  | _ => phase w = Failed (JStr generic_message)
  end.

(** At any time either nothing is in flight and the page is not loading, or
    exactly one call is and the page is loading. *)
Definition one_at_a_time (w : World) : Prop :=
  (inflight w = [] /\ isLoading (ui w) = false) \/
  (exists f h, inflight w = [(f, h)] /\ isLoading (ui w) = true).

(** A payload with all three shapes: the sequence is there, its first frame
    is [null], its second is a frame.  It also carries a field the contract
    does not know and lists [landmarks] first. *)
Definition tracked_payload : JsVal :=
  JObj [("landmarks",
         JArr [JNull; JArr [JObj [("wrist_x", JNum 0.5%float)]]]);
        ("most_similar_player", JStr "Nadal");
        ("similarities", JArr []);
        ("coaching", JArr []);
        ("phases",
         JObj [("preparation", JArr [JNum 0%float; JNum 1%float]);
               ("forward_swing", JArr [JNum 1%float; JNum 2%float]);
               ("contact", JNum 2%float);
               ("follow_through", JArr [JNum 2%float; JNum 3%float]);
               ("recovery", JArr [JNum 3%float; JNum 4%float])]);
        ("reference_video_url", JNull);
        ("elapsed_ms", JNum 8250%float)].

(** The same payload read at the type of the contract. *)
Definition tracked_response : AnalysisResponse :=
  {| most_similar_player := "Nadal";
     similarities := [];
     coaching := [];
     phases := {| preparation := (0%float, 1%float);
                  forward_swing := (1%float, 2%float);
                  contact := 2%float;
                  follow_through := (2%float, 3%float);
                  recovery := (3%float, 4%float) |};
     landmarks := Some [None; Some [[("wrist_x", 0.5%float)]]];
     reference_video_url := None |}.

(** What holds of the page at any time: while it is loading exactly one
    call is in flight, made for the file and hand still selected, with no
    error left; otherwise nothing is in flight. *)
Definition submission_invariant (w : World) : Prop :=
  if isLoading (ui w)
  then exists f,
         file (ui w) = Some f /\
         inflight w = [(f, hand (ui w))] /\
         error (ui w) = JNull
  else inflight w = [].

(** [err.response?.data?.detail], read off a caught value whatever it is:
    [undefined] when it is not an object with such a chain. *)
Definition thrown_detail (err : Thrown) : JsVal :=
  let response :=
    match err with
    | ErrorObj _ props => opt_chain (JObj props) "response"
    | Value v => opt_chain v "response"
    end in
  opt_chain (opt_chain response "data") "detail".

(** What the message falls back on: the message of an [Error], the literal
    for anything else. *)
Definition fallback_message (err : Thrown) : JsVal :=
  match err with
  | ErrorObj m _ => JStr m
  | Value _ => JStr generic_message
  end.

(** The props the result page hands on for a location state: those of
    [state.result], read leniently. *)
Definition result_view (state : JsVal) : ResultPage.View :=
  let result := opt_chain state "result" in
  ResultPage.Results
    {| ResultPage.label := "Analyze another swing"; ResultPage.target := "/" |}
    (opt_chain result "similarities")
    (opt_chain result "most_similar_player")
    (opt_chain state "userVideoUrl")
    (opt_chain result "reference_video_url")
    (opt_chain result "coaching").

(** The page after a failed attempt: [swing.mp4] selected, the service
    unreachable. *)
Definition failed_once : World :=
  step (Settle 0 {| latency := Some 10; reply := ConnectionFailure |}) submitted.

(** The page after a successful attempt. *)
Definition succeeded_once : World :=
  step (Settle 0 {| latency := Some 1200; reply := HttpReply 200 federer_response |})
       submitted.

(* ================================================================== *)
(** * Properties *)
(* ================================================================== *)

(** ** The sample response *)

Example federer_response_valid : is_AnalysisResponse federer_response = true.
Proof. reflexivity. Qed.

(** ** The client *)

Lemma analyzeSwing_request_timeout (f : File) (h : Hand) :
  timeout (analyzeSwing_request f h) = 300000.
Proof. reflexivity. Qed.

Lemma healthCheck_request_timeout : timeout healthCheck_request = 0.
Proof. reflexivity. Qed.

(** An exchange that is not over after 300000 ms ends [analyzeSwing] with
    the timeout error. *)
Lemma analyzeSwing_late (f : File) (h : Hand) (net : Network) :
  match latency net with Some t => 300000 <= t | None => True end ->
  analyzeSwing f h net = Rejected (timeout_error (analyzeSwing_request f h)).
Proof.
  intros Hlate. unfold analyzeSwing, request, timeout_elapses.
  rewrite analyzeSwing_request_timeout.
  destruct (latency net) as [t|]; [|reflexivity].
  apply Z.leb_le in Hlate. rewrite Hlate. reflexivity.
Qed.

(** One that is over earlier ends it the way the exchange ended. *)
Lemma analyzeSwing_in_time (f : File) (h : Hand) (t : Z) (r : Reply) :
  t < 300000 ->
  analyzeSwing f h {| latency := Some t; reply := r |} =
  match r with
  | ConnectionFailure => Rejected network_error
  | HttpReply status body =>
      if validateStatus status then Resolved body
      else Rejected (status_error status body)
  end.
Proof.
  intros Ht. unfold analyzeSwing, request, timeout_elapses.
  rewrite analyzeSwing_request_timeout. cbn [latency reply].
  apply Z.leb_gt in Ht. rewrite Ht. cbn [andb].
  destruct r as [status body|]; [|reflexivity].
  destruct (validateStatus status); reflexivity.
Qed.

(** [healthCheck] has no timer: it ends the way the exchange ends, whenever
    that is. *)
Lemma healthCheck_settles (t : Z) (r : Reply) :
  healthCheck {| latency := Some t; reply := r |} =
  match r with
  | ConnectionFailure => Rejected network_error
  | HttpReply status body =>
      if validateStatus status then Resolved body
      else Rejected (status_error status body)
  end.
Proof.
  unfold healthCheck, request, timeout_elapses.
  rewrite healthCheck_request_timeout. cbn [latency reply Z.ltb Z.compare andb].
  destruct r as [status body|]; [|reflexivity].
  destruct (validateStatus status); reflexivity.
Qed.

Lemma healthCheck_waits (r : Reply) :
  healthCheck {| latency := None; reply := r |} = Pending.
Proof. reflexivity. Qed.

(** [analyzeSwing] always settles. *)
Lemma analyzeSwing_settles (f : File) (h : Hand) (net : Network) :
  analyzeSwing f h net <> Pending.
Proof.
  destruct net as [[t|] r].
  - destruct (Z.lt_ge_cases t 300000) as [Ht|Ht].
    + rewrite analyzeSwing_in_time by exact Ht.
      destruct r as [status body|]; [destruct (validateStatus status)|]; discriminate.
    + rewrite analyzeSwing_late by exact Ht. discriminate.
  - rewrite analyzeSwing_late by exact I. discriminate.
Qed.

(** C1, as stated, fails: a 200 reply whose body is [{}] resolves the call
    with [{}], which has none of the required fields. *)
Lemma analyzeSwing_resolves_unvalidated :
  ~ valid_or_failed
      (analyzeSwing swing_file Right
         {| latency := Some 10; reply := HttpReply 200 (JObj []) |}).
Proof.
  intros [(v & Hv & Hvalid) | (m & props & Hr & _)].
  - vm_compute in Hv. injection Hv as <-. vm_compute in Hvalid. discriminate.
  - vm_compute in Hr. discriminate.
Qed.

(** C1, amended: the client checks nothing.  A 2xx reply that arrives
    within 300000 ms resolves [analyzeSwing] with its body, whatever that
    body is: a payload missing a required field is returned, not rejected,
    and the value is a structurally valid response precisely when the
    service sent one.  In every other case the call fails with an error
    whose message is not empty; it never stays pending. *)
Theorem analyzeSwing_body_or_error (f : File) (h : Hand) (net : Network) :
  (forall t status body,
      latency net = Some t -> t < 300000 ->
      reply net = HttpReply status body -> validateStatus status = true ->
      analyzeSwing f h net = Resolved body /\
      forall v, analyzeSwing f h net = Resolved v ->
                is_AnalysisResponse v = is_AnalysisResponse body)
  /\
  ((exists t status body,
       latency net = Some t /\ t < 300000 /\
       reply net = HttpReply status body /\ validateStatus status = true)
   \/
   (exists m props,
       analyzeSwing f h net = Rejected (ErrorObj m props) /\ m <> "")).
Proof.
  split.
  - intros t status body Hlat Ht Hreply Hs.
    destruct net as [l r]. cbn [latency reply] in Hlat, Hreply. subst l r.
    rewrite analyzeSwing_in_time by exact Ht. rewrite Hs.
    split; [reflexivity|].
    intros v Hv. injection Hv as <-. reflexivity.
  - destruct net as [[t|] r].
    + destruct (Z.lt_ge_cases t 300000) as [Ht|Ht].
      * rewrite analyzeSwing_in_time by exact Ht.
        destruct r as [status body|].
        -- destruct (validateStatus status) eqn:Hs.
           ++ left. exists t, status, body. cbn [latency reply].
              repeat split; assumption.
           ++ right. eexists _, _. split; [reflexivity | discriminate].
        -- right. eexists _, _. split; [reflexivity | discriminate].
      * right. rewrite analyzeSwing_late by exact Ht.
        eexists _, _. split; [reflexivity | discriminate].
    + right. rewrite analyzeSwing_late by exact I.
      eexists _, _. split; [reflexivity | discriminate].
Qed.

(** The payload without any field is returned as it is. *)
Lemma analyzeSwing_body_or_error_witness :
  analyzeSwing swing_file Right
    {| latency := Some 10; reply := HttpReply 200 (JObj []) |} = Resolved (JObj []) /\
  is_AnalysisResponse (JObj []) = false.
Proof.
  split; [|reflexivity].
  exact (proj1 (proj1 (analyzeSwing_body_or_error swing_file Right
                         {| latency := Some 10; reply := HttpReply 200 (JObj []) |})
                      10 200 (JObj []) eq_refl eq_refl eq_refl eq_refl)).
Defined.

Lemma analyzeSwing_bounded_wait (f : File) (h : Hand) :
  bounded_wait 300000 (analyzeSwing f h).
Proof.
  intros net Hlate. rewrite analyzeSwing_late by exact Hlate.
  eexists _, _. reflexivity.
Qed.

(** C4, as stated, fails: [healthCheck] passes no [timeout] and the
    instance has none, so it is not bounded by 300000 ms; when the service
    never answers it stays pending. *)
Lemma healthCheck_not_bounded : ~ bounded_wait 300000 healthCheck.
Proof.
  intros Hb.
  destruct (Hb {| latency := None; reply := ConnectionFailure |} I)
    as (m & props & Hr).
  vm_compute in Hr. discriminate.
Qed.

(** C4, amended: [healthCheck] sends [GET /health] with the defaults of the
    instance, that is without a timeout.  It settles when the exchange
    ends, however late: resolved with the body as received on a 2xx status,
    rejected with an error on a network failure or any other status, which
    is what [analyzeSwing] does with an exchange that ends within its
    300000 ms; while the exchange does not end, it stays pending. *)
Theorem healthCheck_policy (net : Network) :
  method healthCheck_request = GET /\
  url healthCheck_request = "/health" /\
  timeout healthCheck_request = 0 /\
  healthCheck net =
    match latency net with
    | None => Pending
    | Some _ =>
        match reply net with
        | ConnectionFailure => Rejected network_error
        | HttpReply status body =>
            if validateStatus status then Resolved body
            else Rejected (status_error status body)
        end
    end /\
  forall f h t,
    latency net = Some t -> t < 300000 ->
    analyzeSwing f h net = healthCheck net.
Proof.
  destruct net as [[t|] r]; cbn [latency reply].
  - repeat split; try reflexivity.
    + apply healthCheck_settles.
    + intros f h t' Heq Ht'. injection Heq as <-.
      rewrite analyzeSwing_in_time by exact Ht'.
      symmetry. apply healthCheck_settles.
  - repeat split; try reflexivity. intros f h t' Heq. discriminate.
Qed.

Lemma healthCheck_policy_witness :
  analyzeSwing swing_file Right
    {| latency := Some 40; reply := HttpReply 503 JNull |} =
  healthCheck {| latency := Some 40; reply := HttpReply 503 JNull |}.
Proof.
  apply (proj2 (proj2 (proj2 (proj2
           (healthCheck_policy {| latency := Some 40; reply := HttpReply 503 JNull |}))))
           swing_file Right 40).
  - reflexivity.
  - lia.
Defined.

(** ** The [catch] block *)

(** An [Error] without a [response] property is reported by its own
    message. *)
Lemma catch_message_error (m : string) (props : list (string * JsVal)) (w : World) :
  lookup "response" props = None ->
  catch_message (ErrorObj m props) w = (Ret (JStr m), w).
Proof.
  intros Hno. unfold catch_message, bind, lift, ret. cbn.
  unfold has_key. rewrite Hno. reflexivity.
Qed.

(** With one, [response.data.detail] wins unless it is [null] or missing. *)
Lemma catch_message_response (m : string) (props : list (string * JsVal))
    (response : JsVal) (w : World) :
  lookup "response" props = Some response ->
  catch_message (ErrorObj m props) w =
  (Ret (coalesce (opt_chain (opt_chain response "data") "detail") (JStr m)), w).
Proof.
  intros Hr. unfold catch_message, bind, lift, ret. cbn.
  unfold has_key. rewrite Hr. reflexivity.
Qed.

(** A [response] property that is there but [undefined], as older versions
    of the library leave it on a timeout, makes no difference. *)
Lemma catch_message_response_undefined (m : string)
    (props : list (string * JsVal)) (w : World) :
  lookup "response" props = Some JUndefined ->
  catch_message (ErrorObj m props) w = (Ret (JStr m), w).
Proof.
  intros Hr. rewrite (catch_message_response m props JUndefined w Hr). reflexivity.
Qed.

(** The literal is what a thrown value that is neither an [Error] nor an
    object with a [response] is reported by. *)
Lemma catch_message_generic (v : JsVal) (w : World) :
  (forall props, v = JObj props -> lookup "response" props = None) ->
  catch_message (Value v) w = (Ret (JStr generic_message), w).
Proof.
  intros Hno. unfold catch_message, bind, lift, ret.
  destruct v; cbn; try reflexivity.
  unfold has_key. rewrite (Hno props eq_refl). reflexivity.
Qed.

(** The block never throws, leaves the world alone, and its message is
    never [null] or [undefined]. *)
Lemma catch_message_total (err : Thrown) (w : World) :
  exists m, catch_message err w = (Ret m, w) /\ nullish m = false.
Proof.
  assert (Hco : forall a b, nullish b = false -> nullish (coalesce a b) = false).
  { intros a b Hb. unfold coalesce. destruct (nullish a) eqn:Ha; assumption. }
  destruct err as [m props | v].
  - destruct (lookup "response" props) as [r|] eqn:Hr.
    + rewrite (catch_message_response _ _ _ _ Hr).
      eexists. split; [reflexivity | apply Hco; reflexivity].
    + rewrite (catch_message_error _ _ _ Hr).
      eexists. split; reflexivity.
  - unfold catch_message, bind, lift, ret.
    destruct v; cbn; try (eexists; split; reflexivity).
    unfold has_key. destruct (lookup "response" props); cbn.
    + eexists. split; [reflexivity | apply Hco; reflexivity].
    + eexists. split; reflexivity.
Qed.

(** ** [handleSubmit] after the [await] *)

Lemma resume_resolved (f : File) (result : JsVal) (w : World) :
  handleSubmit_resume f (Ret result) w =
  (Ret tt,
   {| ui := loaded (ui w) (error (ui w));
      requests := requests w;
      inflight := inflight w;
      objectUrls := objectUrls w ++ [f];
      navigation :=
        Some {| to := "/results";
                nav_state :=
                  JObj [("result", result);
                        ("userVideoUrl",
                         JStr ("blob:" ++ show_int (Z.of_nat (length (objectUrls w)))))] |} |}).
Proof. reflexivity. Qed.

Lemma resume_rejected (f : File) (err : Thrown) (m : JsVal) (w : World) :
  catch_message err w = (Ret m, w) ->
  handleSubmit_resume f (Raise err) w =
  (Ret tt,
   {| ui := loaded (ui w) m;
      requests := requests w;
      inflight := inflight w;
      objectUrls := objectUrls w;
      navigation := navigation w |}).
Proof.
  intros Hm.
  unfold handleSubmit_resume, try_finally, try_catch, bind, lift.
  cbn. rewrite Hm. reflexivity.
Qed.

(** The promise [handleSubmit] returns is never rejected: whatever the
    [try] block throws is caught, and neither the [catch] nor the [finally]
    block throws. *)
Lemma handleSubmit_resume_fulfils (f : File) (settled : Exc JsVal) (w : World) :
  fst (handleSubmit_resume f settled w) = Ret tt.
Proof.
  destruct settled as [result | err].
  - rewrite resume_resolved. reflexivity.
  - destruct (catch_message_total err w) as (m & Hm & _).
    rewrite (resume_rejected f err m w Hm). reflexivity.
Qed.

Lemma handleSubmit_resume_loaded (f : File) (settled : Exc JsVal) (w : World) :
  isLoading (ui (snd (handleSubmit_resume f settled w))) = false.
Proof.
  destruct settled as [result | err].
  - rewrite resume_resolved. reflexivity.
  - destruct (catch_message_total err w) as (m & Hm & _).
    rewrite (resume_rejected f err m w Hm). reflexivity.
Qed.

Lemma settle_resumes (w : World) (i : nat) (f : File) (h : Hand) (net : Network) :
  nth_error (inflight w) i = Some (f, h) ->
  settle i net w =
  match analyzeSwing f h net with
  | Resolved result => Some (handleSubmit_resume f (Ret result) (resume_nth i w))
  | Rejected err => Some (handleSubmit_resume f (Raise err) (resume_nth i w))
  | Pending => None
  end.
Proof. intros Hi. unfold settle. rewrite Hi. reflexivity. Qed.

(** A failed call: [handleSubmit] completes normally and leaves the message
    of the [catch] block in [error]. *)
Lemma settle_rejected (w : World) (i : nat) (f : File) (h : Hand)
    (net : Network) (err : Thrown) (m : JsVal) :
  nth_error (inflight w) i = Some (f, h) ->
  analyzeSwing f h net = Rejected err ->
  catch_message err (resume_nth i w) = (Ret m, resume_nth i w) ->
  settle i net w =
  Some (Ret tt,
        {| ui := loaded (ui w) m;
           requests := requests w;
           inflight := remove_nth i (inflight w);
           objectUrls := objectUrls w;
           navigation := navigation w |}).
Proof.
  intros Hi Hrej Hm.
  rewrite (settle_resumes w i f h net Hi), Hrej.
  rewrite (resume_rejected f err m _ Hm). reflexivity.
Qed.

Lemma phase_failed (s : State) (m : JsVal) (rs : list RequestConfig)
    (fl : list (File * Hand)) (us : list File) :
  nullish m = false ->
  phase {| ui := loaded s m; requests := rs; inflight := fl;
           objectUrls := us; navigation := None |} = Failed m.
Proof. intros Hm. destruct m; try reflexivity; discriminate. Qed.

(** ** Failures *)

Example submitted_inflight :
  inflight submitted = [(swing_file, Right)] /\ phase submitted = Submitting.
Proof. split; reflexivity. Qed.

(** C2, as stated, fails: a 500 whose body is [{}] is reported by the
    message of the error axios rejected with, not by the generic one. *)
Lemma status_without_detail_not_generic :
  ~ detail_or_generic (JObj [])
      (step (Settle 0 {| latency := Some 10; reply := HttpReply 500 (JObj []) |})
            submitted).
Proof.
  unfold detail_or_generic. vm_compute. intros H. discriminate H.
Qed.

(** C2, amended: when the service answers with a failure status,
    [handleSubmit] completes and the page is [Failed]; its message is the
    [detail] of the body, verbatim, when the body has one that is not
    [null], and otherwise the message of the rejection itself, "Request
    failed with status code N". *)
Theorem failure_status_message (w : World) (i : nat) (f : File) (h : Hand)
    (t status : Z) (body : JsVal) :
  nth_error (inflight w) i = Some (f, h) ->
  navigation w = None ->
  t < 300000 ->
  validateStatus status = false ->
  exists w',
    settle i {| latency := Some t; reply := HttpReply status body |} w
      = Some (Ret tt, w') /\
    (forall d, opt_chain body "detail" = JStr d -> phase w' = Failed (JStr d)) /\
    (nullish (opt_chain body "detail") = true ->
     phase w' = Failed (JStr ("Request failed with status code " ++ show_int status))).
Proof.
  intros Hi Hnav Ht Hs.
  eexists. split.
  - apply (settle_rejected w i f h _ (status_error status body)).
    + exact Hi.
    + rewrite analyzeSwing_in_time by exact Ht. rewrite Hs. reflexivity.
    + apply catch_message_response. reflexivity.
  - rewrite Hnav. cbn [response_object opt_chain lookup String.eqb Ascii.eqb Bool.eqb].
    split.
    + intros d Hd. rewrite Hd. reflexivity.
    + intros Hnull. unfold coalesce. rewrite Hnull. reflexivity.
Qed.

Lemma failure_status_message_witness :
  exists w',
    settle 0 {| latency := Some 10;
                reply := HttpReply 500 (JObj [("detail", JStr "video too short")]) |}
           submitted = Some (Ret tt, w') /\
    phase w' = Failed (JStr "video too short").
Proof.
  destruct (failure_status_message submitted 0 swing_file Right 10 500
              (JObj [("detail", JStr "video too short")])
              eq_refl eq_refl eq_refl eq_refl) as (w' & Hs & Hd & _).
  exists w'. split; [exact Hs | apply Hd; reflexivity].
Defined.

(** An empty [detail] is kept as the message all the same, but being falsy
    it is not rendered. *)
Remark empty_detail_not_rendered :
  let w := step (Settle 0 {| latency := Some 10;
                             reply := HttpReply 500 (JObj [("detail", JStr "")]) |})
                submitted in
  phase w = Failed (JStr "") /\
  render (ui w) = Form (Some swing_file) None Right false false.
Proof. split; reflexivity. Qed.

(** The scenario of the specification, run from the start. *)
Example scenario_video_too_short :
  phase (run [User (onFileChange (Some swing_file)); User onSubmit;
              Settle 0 {| latency := Some 10;
                          reply := HttpReply 500 (JObj [("detail", JStr "video too short")]) |}]
             initial_world)
  = Failed (JStr "video too short").
Proof. reflexivity. Qed.

(** C5, as stated, fails: after a timeout the page is [Failed], but not
    with the generic message. *)
Lemma timeout_not_generic :
  phase (step (Settle 0 {| latency := None; reply := ConnectionFailure |}) submitted)
  <> Failed (JStr generic_message).
Proof. vm_compute. intros H. discriminate H. Qed.

(** C5, amended: when the exchange is not over after 300000 ms,
    [handleSubmit] completes normally (the rejection is caught) and the page
    is [Failed] with the message of the timeout error, "timeout of 300000ms
    exceeded", which does not come from the service. *)
Theorem timeout_reported (w : World) (i : nat) (f : File) (h : Hand) (net : Network) :
  nth_error (inflight w) i = Some (f, h) ->
  navigation w = None ->
  match latency net with Some t => 300000 <= t | None => True end ->
  exists w',
    settle i net w = Some (Ret tt, w') /\
    phase w' = Failed (JStr "timeout of 300000ms exceeded").
Proof.
  intros Hi Hnav Hlate.
  eexists. split.
  - apply (settle_rejected w i f h net (timeout_error (analyzeSwing_request f h))).
    + exact Hi.
    + apply analyzeSwing_late. exact Hlate.
    + apply catch_message_error. reflexivity.
  - rewrite Hnav. reflexivity.
Qed.

Lemma timeout_reported_witness :
  exists w',
    settle 0 {| latency := Some 360000; reply := HttpReply 200 federer_response |}
           submitted = Some (Ret tt, w') /\
    phase w' = Failed (JStr "timeout of 300000ms exceeded").
Proof.
  apply (timeout_reported submitted 0 swing_file Right
           {| latency := Some 360000; reply := HttpReply 200 federer_response |}
           eq_refl eq_refl).
  cbn. lia.
Defined.

(** ** One submission at a time *)

(** C3: while a submission is in flight the page renders [<LoadingState />]
    only, which is given no callback; a submit then has no way to reach
    [handleSubmit], so it sends no request and changes nothing. *)
Theorem submit_while_submitting_ignored (w : World) :
  isLoading (ui w) = true ->
  step (User onSubmit) w = w.
Proof.
  intros Hload. unfold step, render. rewrite Hload. reflexivity.
Qed.

Lemma submit_while_submitting_ignored_witness :
  step (User onSubmit) submitted = submitted /\
  requests (step (User onSubmit) submitted) = [analyzeSwing_request swing_file Right].
Proof.
  rewrite (submit_while_submitting_ignored submitted eq_refl).
  split; reflexivity.
Defined.

(** The same holds of every callback of the page. *)
Lemma callbacks_unreachable_while_loading (w : World) (c : Callback) :
  isLoading (ui w) = true ->
  step (User c) w = w.
Proof.
  intros Hload. unfold step, render. rewrite Hload. reflexivity.
Qed.

(** The guard is in the view and not in the handler: [handleSubmit] only
    tests [file], and a direct second call would send a second request. *)
Remark handleSubmit_tests_file_only :
  requests (snd (handleSubmit submitted)) =
  [analyzeSwing_request swing_file Right; analyzeSwing_request swing_file Right].
Proof. reflexivity. Qed.

Lemma settle_keeps_loaded (w : World) (i : nat) (f : File) (h : Hand) (net : Network) :
  nth_error (inflight w) i = Some (f, h) ->
  exists w',
    settle i net w = Some (Ret tt, w') /\
    isLoading (ui w') = false /\
    inflight w' = remove_nth i (inflight w).
Proof.
  intros Hi. rewrite (settle_resumes w i f h net Hi).
  destruct (analyzeSwing f h net) as [result | err |] eqn:Ho.
  - rewrite resume_resolved. eexists. split; [reflexivity|]. split; reflexivity.
  - destruct (catch_message_total err (resume_nth i w)) as (m & Hm & _).
    rewrite (resume_rejected f err m _ Hm).
    eexists. split; [reflexivity|]. split; reflexivity.
  - exfalso. exact (analyzeSwing_settles f h net Ho).
Qed.

Lemma step_one_at_a_time (ev : Event) (w : World) :
  one_at_a_time w -> one_at_a_time (step ev w).
Proof.
  intros Hinv. destruct ev as [c | i net].
  - destruct Hinv as [[Hfl Hload] | (f & h & Hfl & Hload)].
    + unfold step. destruct (offers (render (ui w)) c).
      * destruct c as [f' | h' | | ]; cbn.
        -- left. split; assumption.
        -- left. split; assumption.
        -- unfold handleSubmit. destruct (file (ui w)) as [f|]; cbn.
           ++ right. exists f, (hand (ui w)). rewrite Hfl. split; reflexivity.
           ++ left. split; assumption.
        -- left. split; assumption.
      * left. split; assumption.
    + rewrite callbacks_unreachable_while_loading by exact Hload.
      right. exists f, h. split; assumption.
  - unfold step.
    destruct (nth_error (inflight w) i) as [[f h]|] eqn:Hi.
    + destruct (settle_keeps_loaded w i f h net Hi) as (w' & Hs & Hload' & Hfl').
      rewrite Hs. left. split; [|exact Hload'].
      rewrite Hfl'.
      destruct Hinv as [[Hfl _] | (f0 & h0 & Hfl & _)]; rewrite Hfl in *.
      * destruct i; discriminate Hi.
      * destruct i as [|j]; [reflexivity|].
        destruct j; discriminate Hi.
    + unfold settle. rewrite Hi. exact Hinv.
Qed.

Lemma reachable_one_at_a_time (w : World) :
  reachable w -> one_at_a_time w.
Proof.
  induction 1 as [| ev w _ IH].
  - left. split; reflexivity.
  - apply step_one_at_a_time. exact IH.
Qed.

(** C10: whenever a suspended call settles, on success as on failure,
    [handleSubmit] completes with [isLoading] reset, so the page has left
    [Submitting]; and the call does settle, since [analyzeSwing] never stays
    pending. *)
Theorem loading_reset_on_settle (w : World) (i : nat) (f : File) (h : Hand)
    (net : Network) :
  nth_error (inflight w) i = Some (f, h) ->
  exists w',
    settle i net w = Some (Ret tt, w') /\
    step (Settle i net) w = w' /\
    isLoading (ui w') = false /\
    phase w' <> Submitting.
Proof.
  intros Hi.
  destruct (settle_keeps_loaded w i f h net Hi) as (w' & Hs & Hload & _).
  exists w'. split; [exact Hs|]. split.
  - unfold step. rewrite Hs. reflexivity.
  - split; [exact Hload|].
    unfold phase. rewrite Hload.
    destruct (navigation w'); [discriminate|].
    destruct (error (ui w')); discriminate.
Qed.

Lemma loading_reset_on_settle_witness :
  isLoading (ui submitted) = true /\
  isLoading (ui (step (Settle 0 {| latency := Some 10; reply := ConnectionFailure |})
                      submitted)) = false /\
  isLoading (ui (step (Settle 0 {| latency := Some 10;
                                   reply := HttpReply 200 federer_response |})
                      submitted)) = false.
Proof.
  split; [reflexivity|]. split.
  - destruct (loading_reset_on_settle submitted 0 swing_file Right
                {| latency := Some 10; reply := ConnectionFailure |} eq_refl)
      as (w' & _ & Hstep & Hload & _).
    rewrite Hstep. exact Hload.
  - destruct (loading_reset_on_settle submitted 0 swing_file Right
                {| latency := Some 10; reply := HttpReply 200 federer_response |} eq_refl)
      as (w' & _ & Hstep & Hload & _).
    rewrite Hstep. exact Hload.
Defined.

(** ** Dismissing an error *)

(** C7: in a [Failed] state the retry callback, [() => setError(null)],
    leads to [Idle] and touches nothing but [error]: the selected file and
    the hand stay, and no request is sent.  The callback is offered whenever
    the message is rendered, that is whenever it is truthy. *)
Theorem dismiss_keeps_selection (w : World) (m : JsVal) :
  phase w = Failed m ->
  phase (snd (callback onRetry w)) = Idle /\
  file (ui (snd (callback onRetry w))) = file (ui w) /\
  hand (ui (snd (callback onRetry w))) = hand (ui w) /\
  requests (snd (callback onRetry w)) = requests w /\
  (truthy m = true -> step (User onRetry) w = snd (callback onRetry w)).
Proof.
  unfold phase. intros Hphase.
  destruct (navigation w) as [n|] eqn:Hnav; [discriminate|].
  destruct (isLoading (ui w)) eqn:Hload; [discriminate|].
  repeat split.
  - unfold phase. cbn. rewrite Hnav, Hload. reflexivity.
  - intros Htruthy.
    assert (Herr : error (ui w) = m).
    { destruct (error (ui w)); try discriminate; injection Hphase as <-; reflexivity. }
    unfold step, render. rewrite Hload, Herr, Htruthy. reflexivity.
Qed.

Lemma dismiss_keeps_selection_witness :
  phase (step (User onRetry)
           (step (Settle 0 {| latency := Some 10; reply := ConnectionFailure |}) submitted))
  = Idle /\
  file (ui (step (User onRetry)
           (step (Settle 0 {| latency := Some 10; reply := ConnectionFailure |}) submitted)))
  = Some swing_file.
Proof.
  pose proof (dismiss_keeps_selection
                (step (Settle 0 {| latency := Some 10; reply := ConnectionFailure |}) submitted)
                (JStr "Network Error") eq_refl) as (Hidle & Hfile & _ & _ & Hstep).
  rewrite (Hstep eq_refl). split; [exact Hidle | rewrite Hfile; reflexivity].
Defined.

(** ** The result page *)

Lemma is_AnalysisResponse_object (v : JsVal) :
  is_AnalysisResponse v = true -> exists props, v = JObj props.
Proof.
  unfold is_AnalysisResponse, as_AnalysisResponse.
  destruct v; try discriminate. intros _. eexists. reflexivity.
Qed.

(** Given a result that is an object, the page renders it, passing on its
    fields as they are. *)
Lemma ResultPage_renders_result (props : list (string * JsVal)) (url : JsVal) :
  ResultPage.ResultPage (JObj [("result", JObj props); ("userVideoUrl", url)]) =
  Ret (ResultPage.Results
         {| ResultPage.label := "Analyze another swing"; ResultPage.target := "/" |}
         (opt_chain (JObj props) "similarities")
         (opt_chain (JObj props) "most_similar_player")
         url
         (opt_chain (JObj props) "reference_video_url")
         (opt_chain (JObj props) "coaching")).
Proof. reflexivity. Qed.

(** The component never throws, whatever [location.state] is. *)
Lemma ResultPage_never_throws (s : JsVal) :
  exists v, ResultPage.ResultPage s = Ret v.
Proof.
  unfold ResultPage.ResultPage.
  destruct s; cbn; try (eexists; reflexivity).
  destruct (lookup "result" props) as [result|]; cbn; [|eexists; reflexivity].
  destruct result; cbn; try (eexists; reflexivity);
    match goal with
    | |- context [if ?b then _ else _] => destruct b; cbn; eexists; reflexivity
    end.
Qed.

(** C6: entered with a [location.state] that is [null] or [undefined], or
    an object without a [result], the result page completes normally with
    the fallback: the text "No analysis results found." and a button that
    navigates to ["/"], the route of the upload page. *)
Theorem result_page_fallback (s : JsVal) :
  s = JNull \/ s = JUndefined \/
  (exists props, s = JObj props /\ lookup "result" props = None) ->
  exists button,
    ResultPage.ResultPage s = Ret (ResultPage.NoResults "No analysis results found." button) /\
    App.Routes (ResultPage.target button) = Some App.UploadPageElement.
Proof.
  intros [-> | [-> | (props & -> & Hno)]];
    exists {| ResultPage.label := "Upload a Video"; ResultPage.target := "/" |}.
  - split; reflexivity.
  - split; reflexivity.
  - split; [|reflexivity].
    unfold ResultPage.ResultPage. cbn. rewrite Hno. reflexivity.
Qed.

Lemma result_page_fallback_witness :
  exists button,
    ResultPage.ResultPage (JObj [("userVideoUrl", JStr "blob:0")]) =
      Ret (ResultPage.NoResults "No analysis results found." button) /\
    App.Routes (ResultPage.target button) = Some App.UploadPageElement.
Proof.
  apply (result_page_fallback (JObj [("userVideoUrl", JStr "blob:0")])).
  right. right. exists [("userVideoUrl", JStr "blob:0")].
  split; reflexivity.
Defined.

(** The fallback is what any falsy [result] gets as well. *)
Lemma result_page_fallback_falsy (s : JsVal) :
  truthy (opt_chain s "result") = false ->
  ResultPage.ResultPage s = Ret ResultPage.fallback.
Proof.
  intros Hf. unfold ResultPage.ResultPage. rewrite Hf. reflexivity.
Qed.

(** ** Success *)

(** C9: when the service answers a submission with a 2xx status and a
    complete response, [handleSubmit] completes and the page has navigated
    to ["/results"] with a state whose [result] is that body, untouched,
    next to the fresh object URL of the file; the result page, which that
    route renders, passes the fields of the body on as they are. *)
Theorem success_hands_off_payload (w : World) (i : nat) (f : File) (h : Hand)
    (t status : Z) (body : JsVal) :
  nth_error (inflight w) i = Some (f, h) ->
  t < 300000 ->
  validateStatus status = true ->
  is_AnalysisResponse body = true ->
  exists w' url,
    settle i {| latency := Some t; reply := HttpReply status body |} w
      = Some (Ret tt, w') /\
    navigation w' =
      Some {| to := "/results";
              nav_state := JObj [("result", body); ("userVideoUrl", JStr url)] |} /\
    phase w' = Succeeded body (JStr url) /\
    isLoading (ui w') = false /\
    App.Routes "/results" = Some App.ResultPageElement /\
    ResultPage.ResultPage (JObj [("result", body); ("userVideoUrl", JStr url)]) =
      Ret (ResultPage.Results
             {| ResultPage.label := "Analyze another swing"; ResultPage.target := "/" |}
             (opt_chain body "similarities")
             (opt_chain body "most_similar_player")
             (JStr url)
             (opt_chain body "reference_video_url")
             (opt_chain body "coaching")).
Proof.
  intros Hi Ht Hs Hvalid.
  destruct (is_AnalysisResponse_object body Hvalid) as (props & ->).
  eexists _, _. split.
  - rewrite (settle_resumes w i f h _ Hi).
    rewrite analyzeSwing_in_time by exact Ht. rewrite Hs.
    rewrite resume_resolved. reflexivity.
  - repeat split.
Qed.

Lemma success_hands_off_payload_witness :
  hand (ui submitted) = Right /\
  exists w',
    settle 0 {| latency := Some 1200; reply := HttpReply 200 federer_response |}
           submitted = Some (Ret tt, w') /\
    phase w' = Succeeded federer_response (JStr "blob:0").
Proof.
  split; [reflexivity|].
  destruct (success_hands_off_payload submitted 0 swing_file Right 1200 200
              federer_response eq_refl eq_refl eq_refl eq_refl)
    as (w' & url & Hs & Hnav & Hphase & _).
  exists w'. split; [exact Hs|].
  vm_compute in Hs. injection Hs as <-. reflexivity.
Defined.

(** The scenario of the specification, run from the start. *)
Example scenario_federer :
  phase (run [User (onFileChange (Some swing_file)); User onSubmit;
              Settle 0 {| latency := Some 1200;
                          reply := HttpReply 200 federer_response |}]
             initial_world)
  = Succeeded federer_response (JStr "blob:0").
Proof. reflexivity. Qed.

(** ** Landmarks through a round trip *)

Section Traverse.

Context {A B : Type} (read : A -> option B) (write : B -> A).

(** Writing back what was read gives the original... *)
Lemma traverse_write :
  (forall a b, read a = Some b -> write b = a) ->
  forall l l', traverse read l = Some l' -> map write l' = l.
Proof.
  intros Hrw. induction l as [|a l IH]; intros l' Hl; cbn in Hl.
  - injection Hl as <-. reflexivity.
  - destruct (read a) as [b|] eqn:Ha; [|discriminate].
    cbn in Hl. destruct (traverse read l) as [bs|]; [|discriminate].
    injection Hl as <-. cbn. rewrite (Hrw a b Ha), (IH bs eq_refl). reflexivity.
Qed.

(** ... and reading what was written gives the value written. *)
Lemma traverse_read :
  (forall b, read (write b) = Some b) ->
  forall l', traverse read (map write l') = Some l'.
Proof.
  intros Hwr. induction l' as [|b l' IH]; cbn.
  - reflexivity.
  - rewrite Hwr. cbn. rewrite IH. reflexivity.
Qed.

End Traverse.

Lemma as_NumberRecord_write (v : JsVal) (r : NumberRecord) :
  as_NumberRecord v = Some r -> of_NumberRecord r = v.
Proof.
  destruct v; try discriminate. cbn. intros Hr. unfold of_NumberRecord. f_equal.
  apply (traverse_write as_entry (fun kv => (fst kv, JNum (snd kv)))); [|exact Hr].
  intros [k x] [k' y]. unfold as_entry. cbn.
  destruct x; try discriminate. cbn. intros Heq. injection Heq as <- <-. reflexivity.
Qed.

Lemma as_NumberRecord_read (r : NumberRecord) :
  as_NumberRecord (of_NumberRecord r) = Some r.
Proof.
  cbn. apply (traverse_read as_entry (fun kv => (fst kv, JNum (snd kv)))).
  intros [k x]. reflexivity.
Qed.

Lemma as_Frame_write (v : JsVal) (f : Frame) :
  as_Frame v = Some f -> of_Frame f = v.
Proof.
  destruct v; try discriminate. cbn. intros Hf. unfold of_Frame. f_equal.
  exact (traverse_write as_NumberRecord of_NumberRecord as_NumberRecord_write _ _ Hf).
Qed.

Lemma as_Frame_read (f : Frame) : as_Frame (of_Frame f) = Some f.
Proof.
  cbn. apply (traverse_read as_NumberRecord of_NumberRecord as_NumberRecord_read).
Qed.

Lemma frame_entry_write (v : JsVal) (o : option Frame) :
  as_nullable as_Frame v = Some o -> of_nullable of_Frame o = v.
Proof.
  unfold as_nullable.
  destruct v; cbn; try discriminate.
  - intros Heq. injection Heq as <-. reflexivity.
  - destruct (traverse as_NumberRecord items) as [f|] eqn:Hf; [|discriminate].
    cbn. intros Heq. injection Heq as <-.
    apply as_Frame_write. exact Hf.
Qed.

Lemma frame_entry_read (o : option Frame) :
  as_nullable as_Frame (of_nullable of_Frame o) = Some o.
Proof.
  destruct o as [f|]; [|reflexivity].
  change (option_map Some (as_Frame (of_Frame f)) = Some (Some f)).
  rewrite as_Frame_read. reflexivity.
Qed.

(** Reading a value as [Landmarks] and writing the result back gives the
    value itself: [null] stays [null], a [null] frame stays a [null] frame in
    its place, a frame stays the same frame. *)
Lemma as_Landmarks_write (v : JsVal) (l : Landmarks) :
  as_Landmarks v = Some l -> of_Landmarks l = v.
Proof.
  unfold as_Landmarks, as_nullable at 1.
  destruct v; cbn; try discriminate.
  - intros Heq. injection Heq as <-. reflexivity.
  - destruct (traverse (as_nullable as_Frame) items) as [frames|] eqn:Hf; [|discriminate].
    cbn. intros Heq. injection Heq as <-. cbn. f_equal.
    exact (traverse_write _ _ frame_entry_write _ _ Hf).
Qed.

(** Conversely no two values of the type are written alike. *)
Lemma as_Landmarks_read (l : Landmarks) :
  as_Landmarks (of_Landmarks l) = Some l.
Proof.
  destruct l as [frames|]; [|reflexivity].
  cbn. rewrite (traverse_read _ _ frame_entry_read). reflexivity.
Qed.

Lemma of_Landmarks_injective (l1 l2 : Landmarks) :
  of_Landmarks l1 = of_Landmarks l2 -> l1 = l2.
Proof.
  intros Heq.
  assert (H : Some l1 = Some l2)
    by (rewrite <- (as_Landmarks_read l1), <- (as_Landmarks_read l2), Heq; reflexivity).
  injection H as ->. reflexivity.
Qed.

(** The three shapes stay apart. *)
Example landmark_shapes_distinct (f : Frame) :
  of_Landmarks None <> of_Landmarks (Some [None]) /\
  of_Landmarks (Some [None]) <> of_Landmarks (Some [Some f]) /\
  of_Landmarks None <> of_Landmarks (Some []) /\
  of_Landmarks (Some [None]) <> of_Landmarks (Some []).
Proof. repeat split; discriminate. Qed.

Lemma as_AnalysisResponse_landmarks (v : JsVal) (r : AnalysisResponse) :
  as_AnalysisResponse v = Some r ->
  as_Landmarks (opt_chain v "landmarks") = Some (landmarks r).
Proof.
  destruct v; try discriminate.
  unfold as_AnalysisResponse, field, opt_chain. intros Hr.
  repeat match type of Hr with
         | obind ?e _ = Some _ =>
             let x := fresh "x" in
             destruct e as [x|] eqn:?; cbn [obind] in Hr; [|discriminate Hr]
         end.
  injection Hr as <-. cbn [landmarks].
  destruct (lookup "landmarks" props) as [lv|]; [assumption | discriminate].
Qed.

(** What [analyzeSwing] resolves with is the body of the reply, nothing
    else. *)
Lemma analyzeSwing_resolved_body (f : File) (h : Hand) (t status : Z)
    (body v : JsVal) :
  analyzeSwing f h {| latency := Some t; reply := HttpReply status body |}
    = Resolved v ->
  v = body.
Proof.
  destruct (Z.lt_ge_cases t 300000) as [Ht|Ht].
  - rewrite analyzeSwing_in_time by exact Ht.
    destruct (validateStatus status); [|discriminate].
    intros Heq. injection Heq as <-. reflexivity.
  - rewrite analyzeSwing_late by exact Ht. discriminate.
Qed.

(** C8: the landmarks of a reply survive the round trip unchanged.  The
    value the client resolves with, decoded as an Analysis Response and
    encoded again (decoder and encoder modelled from the specification, the
    repository having neither), has exactly the [landmarks] the service
    sent: [null] for the whole sequence, [null] for a frame and a frame of
    records are each written back as themselves and in place, and the
    decoded value in between tells them apart. *)
Theorem landmarks_round_trip (f : File) (h : Hand) (t status : Z)
    (body v : JsVal) (r : AnalysisResponse) :
  analyzeSwing f h {| latency := Some t; reply := HttpReply status body |}
    = Resolved v ->
  as_AnalysisResponse v = Some r ->
  opt_chain (of_AnalysisResponse r) "landmarks" = opt_chain body "landmarks" /\
  as_Landmarks (opt_chain body "landmarks") = Some (landmarks r) /\
  forall r', of_Landmarks (landmarks r') = opt_chain body "landmarks" ->
             landmarks r' = landmarks r.
Proof.
  intros Hv Hr. apply analyzeSwing_resolved_body in Hv. subst v.
  pose proof (as_AnalysisResponse_landmarks body r Hr) as Hl.
  pose proof (as_Landmarks_write _ _ Hl) as Hw.
  repeat split.
  - exact Hw.
  - exact Hl.
  - intros r' Hr'. apply of_Landmarks_injective. rewrite Hr', Hw. reflexivity.
Qed.

Lemma landmarks_round_trip_witness :
  as_AnalysisResponse tracked_payload = Some tracked_response /\
  opt_chain (of_AnalysisResponse tracked_response) "landmarks" =
    JArr [JNull; JArr [JObj [("wrist_x", JNum 0.5%float)]]] /\
  of_AnalysisResponse tracked_response <> tracked_payload.
Proof.
  split; [reflexivity|]. split.
  - rewrite (proj1 (landmarks_round_trip swing_file Right 10 200
                      tracked_payload tracked_payload tracked_response
                      eq_refl eq_refl)).
    reflexivity.
  - discriminate.
Defined.

(* ================================================================== *)
(** * Further properties of the workflow *)
(* ================================================================== *)

(** ** What holds at any time *)

Lemma submission_invariant_initial : submission_invariant initial_world.
Proof. reflexivity. Qed.

Lemma nth_error_singleton {A : Type} (a b : A) (i : nat) :
  nth_error [a] i = Some b -> i = O /\ a = b.
Proof.
  destruct i as [|j]; cbn.
  - intros Heq. injection Heq as <-. split; reflexivity.
  - destruct j; discriminate.
Qed.

Lemma settle_nothing_in_flight (i : nat) (net : Network) (w : World) :
  inflight w = [] -> step (Settle i net) w = w.
Proof.
  intros Hfl. unfold step, settle. rewrite Hfl.
  destruct i; reflexivity.
Qed.

Lemma step_submission_invariant (ev : Event) (w : World) :
  submission_invariant w -> submission_invariant (step ev w).
Proof.
  unfold submission_invariant. intros Hinv.
  destruct (isLoading (ui w)) eqn:Hload.
  - (* one call in flight *)
    destruct Hinv as (f & Hfile & Hfl & Herr).
    destruct ev as [c | i net].
    + rewrite callbacks_unreachable_while_loading by exact Hload.
      rewrite Hload. exists f. auto.
    + unfold step.
      destruct (nth_error (inflight w) i) as [[f' h']|] eqn:Hi.
      * rewrite Hfl in Hi. apply nth_error_singleton in Hi.
        destruct Hi as (-> & Hpair). injection Hpair as <- <-.
        assert (Hi : nth_error (inflight w) 0 = Some (f, hand (ui w)))
          by (rewrite Hfl; reflexivity).
        rewrite (settle_resumes w 0 f (hand (ui w)) net Hi).
        destruct (analyzeSwing f (hand (ui w)) net) as [result | err |].
        -- rewrite resume_resolved. cbn. rewrite Hfl. reflexivity.
        -- destruct (catch_message_total err (resume_nth 0 w)) as (m & Hm & _).
           rewrite (resume_rejected f err m _ Hm). cbn.
           rewrite Hfl. reflexivity.
        -- rewrite Hload. exists f. auto.
      * unfold settle. rewrite Hi, Hload. exists f. auto.
  - (* nothing in flight *)
    destruct ev as [c | i net].
    + unfold step. destruct (offers (render (ui w)) c).
      * destruct c as [f' | h' | | ]; cbn;
          try (rewrite Hload; exact Hinv).
        unfold handleSubmit. destruct (file (ui w)) as [f|] eqn:Hfile; cbn.
        -- rewrite Hinv. exists f. repeat split. exact Hfile.
        -- rewrite Hload. exact Hinv.
      * rewrite Hload. exact Hinv.
    + rewrite settle_nothing_in_flight by exact Hinv.
      rewrite Hload. exact Hinv.
Qed.

Lemma reachable_submission_invariant (w : World) :
  reachable w -> submission_invariant w.
Proof.
  induction 1 as [| ev w _ IH].
  - exact submission_invariant_initial.
  - apply step_submission_invariant. exact IH.
Qed.

(** Every run from a reachable world ends in a reachable world. *)
Lemma reachable_run (evs : list Event) (w : World) :
  reachable w -> reachable (run evs w).
Proof.
  revert w. induction evs as [|ev evs IH]; intros w Hw; cbn.
  - exact Hw.
  - apply IH. apply reachable_step. exact Hw.
Qed.

(** X1: at any time, while the page is loading exactly one call is in
    flight, it was made for the file and the hand that are still selected,
    and no error is left over; while it is not loading, nothing is in
    flight. *)
Theorem inflight_call_is_for_selection (w : World) :
  reachable w ->
  if isLoading (ui w)
  then exists f,
         file (ui w) = Some f /\
         inflight w = [(f, hand (ui w))] /\
         error (ui w) = JNull
  else inflight w = [].
Proof.
  intros Hw. exact (reachable_submission_invariant w Hw).
Qed.

Lemma inflight_call_is_for_selection_witness :
  exists f,
    file (ui submitted) = Some f /\
    inflight submitted = [(f, hand (ui submitted))] /\
    error (ui submitted) = JNull.
Proof.
  exact (inflight_call_is_for_selection submitted
           (reachable_step _ _ (reachable_step _ _ reachable_initial))).
Defined.

(** X2: an object URL is made when a call resolves and at no other time,
    and the navigation happens in the same step.  A callback of the page,
    a call that is rejected and a settling of nothing leave the object URLs
    and the navigation as they are; a call that resolves registers the file
    it was made for and navigates to ["/results"] with a state made of the
    value it resolved with and the URL just minted for that file. *)
Theorem preview_url_only_on_success (ev : Event) (w : World) :
  match ev with
  | User c =>
      objectUrls (step ev w) = objectUrls w /\
      navigation (step ev w) = navigation w
  | Settle i net =>
      match nth_error (inflight w) i with
      | Some (f, h) =>
          match analyzeSwing f h net with
          | Resolved result =>
              objectUrls (step ev w) = (objectUrls w ++ [f])%list /\
              navigation (step ev w) =
                Some {| to := "/results";
                        nav_state :=
                          JObj [("result", result);
                                ("userVideoUrl",
                                 JStr ("blob:" ++
                                       show_int (Z.of_nat (length (objectUrls w)))))] |}
          | _ =>
              objectUrls (step ev w) = objectUrls w /\
              navigation (step ev w) = navigation w
          end
      | None =>
          objectUrls (step ev w) = objectUrls w /\
          navigation (step ev w) = navigation w
      end
  end.
Proof.
  destruct ev as [c | i net]; unfold step.
  - destruct (offers (render (ui w)) c); [|split; reflexivity].
    destruct c as [f' | h' | | ]; try (split; reflexivity).
    cbn. unfold handleSubmit.
    destruct (file (ui w)); split; reflexivity.
  - destruct (nth_error (inflight w) i) as [[f h]|] eqn:Hi.
    + rewrite (settle_resumes w i f h net Hi).
      destruct (analyzeSwing f h net) as [result | err |].
      * rewrite resume_resolved. split; reflexivity.
      * destruct (catch_message_total err (resume_nth i w)) as (m & Hm & _).
        rewrite (resume_rejected f err m _ Hm). split; reflexivity.
      * split; reflexivity.
    + unfold settle. rewrite Hi. split; reflexivity.
Qed.

(** X3: a success does not disable the form.  When a call resolves,
    [handleSubmit] navigates and then resets [isLoading], so the page, for
    as long as it is still rendered, offers the submit again, and a submit
    then sends a second request for the file and hand selected. *)
Theorem success_leaves_form_enabled (w : World) (i : nat) (f f0 : File) (h : Hand)
    (net : Network) (result : JsVal) :
  nth_error (inflight w) i = Some (f, h) ->
  analyzeSwing f h net = Resolved result ->
  file (ui w) = Some f0 ->
  navigation (step (Settle i net) w) <> None /\
  offers (render (ui (step (Settle i net) w))) onSubmit = true /\
  requests (step (User onSubmit) (step (Settle i net) w)) =
    (requests w ++ [analyzeSwing_request f0 (hand (ui w))])%list.
Proof.
  intros Hi Hres Hfile.
  assert (Hstep : step (Settle i net) w =
                  snd (handleSubmit_resume f (Ret result) (resume_nth i w))).
  { unfold step. rewrite (settle_resumes w i f h net Hi), Hres.
    destruct (handleSubmit_resume f (Ret result) (resume_nth i w)). reflexivity. }
  rewrite Hstep, resume_resolved. cbn [snd].
  split; [cbn; discriminate|]. split; [reflexivity|].
  unfold step, render, handleSubmit, resume_nth, loaded. cbn.
  rewrite Hfile. reflexivity.
Qed.

Lemma success_leaves_form_enabled_witness :
  navigation succeeded_once <> None /\
  requests (step (User onSubmit) succeeded_once) =
    [analyzeSwing_request swing_file Right; analyzeSwing_request swing_file Right].
Proof.
  destruct (success_leaves_form_enabled submitted 0 swing_file swing_file Right
              {| latency := Some 1200; reply := HttpReply 200 federer_response |}
              federer_response eq_refl eq_refl eq_refl) as (Hnav & _ & Hreq).
  split; [exact Hnav | exact Hreq].
Defined.

(** What an event adds to the requests sent: nothing, or one request of
    [analyzeSwing]. *)
Lemma step_requests (ev : Event) (w : World) :
  requests (step ev w) = requests w \/
  exists f h,
    requests (step ev w) = (requests w ++ [analyzeSwing_request f h])%list.
Proof.
  destruct ev as [c | i net]; unfold step.
  - destruct (offers (render (ui w)) c); [|left; reflexivity].
    destruct c as [f' | h' | | ]; try (left; reflexivity).
    cbn. unfold handleSubmit.
    destruct (file (ui w)) as [f|]; [|left; reflexivity].
    right. exists f, (hand (ui w)). reflexivity.
  - left. destruct (settle i net w) as [[c w']|] eqn:Hs; [|reflexivity].
    unfold settle in Hs.
    destruct (nth_error (inflight w) i) as [[f h]|]; [|discriminate].
    destruct (analyzeSwing f h net) as [result | err |]; [| |discriminate].
    + rewrite resume_resolved in Hs. injection Hs as _ <-. reflexivity.
    + destruct (catch_message_total err (resume_nth i w)) as (m & Hm & _).
      rewrite (resume_rejected f err m _ Hm) in Hs.
      injection Hs as _ <-. reflexivity.
Qed.

(** X4: requests are sent by a submit only, one at a time and for the
    selected file and hand; no other callback sends one, and a call that
    settles, failed or not, is never sent again. *)
Theorem requests_grow_only_by_submit (ev : Event) (w : World) :
  requests (step ev w) = requests w \/
  (ev = User onSubmit /\
   isLoading (ui w) = false /\
   exists f,
     file (ui w) = Some f /\
     requests (step ev w) =
       (requests w ++ [analyzeSwing_request f (hand (ui w))])%list).
Proof.
  destruct ev as [c | i net].
  - unfold step.
    destruct (offers (render (ui w)) c) eqn:Hoffers; [|left; reflexivity].
    destruct c as [f' | h' | | ]; try (left; reflexivity).
    unfold render in Hoffers.
    destruct (isLoading (ui w)) eqn:Hload; [discriminate|].
    cbn. unfold handleSubmit.
    destruct (file (ui w)) as [f|] eqn:Hfile; [|left; reflexivity].
    right. split; [reflexivity|]. split; [reflexivity|].
    exists f. split; reflexivity.
  - left. unfold step.
    destruct (nth_error (inflight w) i) as [[f h]|] eqn:Hi.
    + rewrite (settle_resumes w i f h net Hi).
      destruct (analyzeSwing f h net) as [result | err |]; [| |reflexivity].
      * rewrite resume_resolved. reflexivity.
      * destruct (catch_message_total err (resume_nth i w)) as (m & Hm & _).
        rewrite (resume_rejected f err m _ Hm). reflexivity.
    + unfold settle. rewrite Hi. reflexivity.
Qed.

(** X5: a submit sends a request exactly when a file is selected.  Without
    one it changes nothing; with one the page is [Submitting], the error of
    an earlier attempt is cleared, the selection stays, and one request for
    the selected file and hand is added. *)
Theorem submit_needs_a_file (w : World) :
  navigation w = None ->
  isLoading (ui w) = false ->
  match file (ui w) with
  | None => step (User onSubmit) w = w
  | Some f =>
      phase (step (User onSubmit) w) = Submitting /\
      error (ui (step (User onSubmit) w)) = JNull /\
      file (ui (step (User onSubmit) w)) = Some f /\
      hand (ui (step (User onSubmit) w)) = hand (ui w) /\
      requests (step (User onSubmit) w) =
        (requests w ++ [analyzeSwing_request f (hand (ui w))])%list /\
      inflight (step (User onSubmit) w) = (inflight w ++ [(f, hand (ui w))])%list
  end.
Proof.
  intros Hnav Hload.
  unfold step, render, phase. rewrite Hload. cbn.
  unfold handleSubmit.
  destruct (file (ui w)) as [f|] eqn:Hfile; cbn.
  - rewrite Hnav. repeat split. exact Hfile.
  - reflexivity.
Qed.

Lemma submit_needs_a_file_witness :
  step (User onSubmit) initial_world = initial_world /\
  phase (step (User onSubmit) failed_once) = Submitting /\
  error (ui (step (User onSubmit) failed_once)) = JNull.
Proof.
  split.
  - exact (submit_needs_a_file initial_world eq_refl eq_refl).
  - pose proof (submit_needs_a_file failed_once eq_refl eq_refl) as H.
    cbn in H. destruct H as (Hphase & Herr & _). split; assumption.
Defined.

(** ** The [catch] block on any thrown value *)

(** X6: whatever was thrown (an [Error], an object, an array, a primitive,
    [null] or [undefined]), the [catch] block does not throw and computes
    [detail ?? fallback]: the [response.data.detail] of the value when it
    has one that is not [null], of whatever type, and otherwise the message
    of an [Error] or the literal for anything else. *)
Theorem catch_message_closed_form (err : Thrown) (w : World) :
  catch_message err w =
  (Ret (coalesce (thrown_detail err) (fallback_message err)), w).
Proof.
  destruct err as [m props | v]; unfold thrown_detail, fallback_message.
  - destruct (lookup "response" props) as [r|] eqn:Hr.
    + rewrite (catch_message_response m props r w Hr).
      cbn [opt_chain]. rewrite Hr. reflexivity.
    + rewrite (catch_message_error m props w Hr).
      cbn [opt_chain]. rewrite Hr. reflexivity.
  - unfold catch_message, bind, lift, ret.
    destruct v; cbn; try reflexivity.
    unfold has_key. destruct (lookup "response" props); reflexivity.
Qed.

(** X7: a rejection of any kind ends in [Failed].  Resumed with a thrown
    value, [handleSubmit] completes normally, leaves a message that is
    neither [null] nor [undefined] in [error], resets [isLoading], keeps
    the selection, and neither navigates nor makes an object URL. *)
Theorem rejection_always_fails_page (f : File) (err : Thrown) (w : World) :
  navigation w = None ->
  exists m,
    handleSubmit_resume f (Raise err) w =
      (Ret tt,
       {| ui := loaded (ui w) m;
          requests := requests w;
          inflight := inflight w;
          objectUrls := objectUrls w;
          navigation := None |}) /\
    nullish m = false /\
    phase (snd (handleSubmit_resume f (Raise err) w)) = Failed m.
Proof.
  intros Hnav.
  destruct (catch_message_total err w) as (m & Hm & Hnn).
  exists m. rewrite (resume_rejected f err m w Hm).
  rewrite Hnav. split; [reflexivity|]. split; [exact Hnn|].
  apply phase_failed. exact Hnn.
Qed.

Lemma rejection_always_fails_page_witness :
  phase (snd (handleSubmit_resume swing_file (Raise (Value JNull)) initial_world))
  = Failed (JStr generic_message).
Proof.
  destruct (rejection_always_fails_page swing_file (Value JNull) initial_world eq_refl)
    as (m & Hres & _ & Hphase).
  rewrite Hphase. vm_compute in Hres. injection Hres as <-. reflexivity.
Defined.

(** X8: a [detail] that is not [null] is surfaced whatever its type: the
    cast to [string] checks nothing, so after a failure status whose body
    carries, say, a list as [detail], that list is the message of the
    [Failed] state. *)
Theorem detail_of_any_type_surfaced (w : World) (i : nat) (f : File) (h : Hand)
    (t status : Z) (body : JsVal) :
  nth_error (inflight w) i = Some (f, h) ->
  navigation w = None ->
  t < 300000 ->
  validateStatus status = false ->
  nullish (opt_chain body "detail") = false ->
  phase (step (Settle i {| latency := Some t; reply := HttpReply status body |}) w)
  = Failed (opt_chain body "detail").
Proof.
  intros Hi Hnav Ht Hs Hdetail. unfold step.
  rewrite (settle_rejected w i f h _ (status_error status body)
             (coalesce (opt_chain body "detail")
                       (JStr ("Request failed with status code " ++ show_int status)))).
  - rewrite Hnav. unfold coalesce. rewrite Hdetail.
    apply phase_failed. exact Hdetail.
  - exact Hi.
  - rewrite analyzeSwing_in_time by exact Ht. rewrite Hs. reflexivity.
  - unfold status_error.
    rewrite (catch_message_response _ [("response", response_object body)]
               (response_object body) _ eq_refl).
    reflexivity.
Qed.

Lemma detail_of_any_type_surfaced_witness :
  phase (step (Settle 0 {| latency := Some 10;
                           reply := HttpReply 422
                                      (JObj [("detail",
                                              JArr [JObj [("msg", JStr "field required")]])]) |})
              submitted)
  = Failed (JArr [JObj [("msg", JStr "field required")]]).
Proof.
  exact (detail_of_any_type_surfaced submitted 0 swing_file Right 10 422
           (JObj [("detail", JArr [JObj [("msg", JStr "field required")]])])
           eq_refl eq_refl eq_refl eq_refl eq_refl).
Defined.

(** ** The result page on any location state *)

Lemma get_prop_defined (v : JsVal) (k : string) :
  nullish v = false -> get_prop v k = Ret (opt_chain v k).
Proof. destruct v; try discriminate; reflexivity. Qed.

Lemma truthy_not_nullish (v : JsVal) : truthy v = true -> nullish v = false.
Proof. destruct v; try discriminate; reflexivity. Qed.

(** X9: whatever [location.state] is, the result page does not throw: it
    renders the result, handing on the fields of [state.result] as they are
    ([undefined] where one is missing), exactly when [state.result] is
    truthy, and the fallback in every other case. *)
Theorem ResultPage_renders_or_falls_back (s : JsVal) :
  ResultPage.ResultPage s =
  Ret (if truthy (opt_chain s "result") then result_view s else ResultPage.fallback).
Proof.
  unfold ResultPage.ResultPage, result_view.
  destruct (truthy (opt_chain s "result")) eqn:Htruthy; [|reflexivity].
  cbn [negb].
  assert (Hs : nullish s = false) by (destruct s; try discriminate; reflexivity).
  pose proof (truthy_not_nullish _ Htruthy) as Hr.
  rewrite !(get_prop_defined s) by exact Hs. cbn [and_then].
  rewrite !(get_prop_defined (opt_chain s "result")) by exact Hr.
  reflexivity.
Qed.

(** X10: a success whose body is falsy ([null], an empty text, [0],
    [false]) still navigates to ["/results"], and the result page then shows
    the fallback: the user is told there are no results and no error. *)
Theorem falsy_success_body_shows_fallback (w : World) (i : nat) (f : File)
    (h : Hand) (t status : Z) (body : JsVal) :
  nth_error (inflight w) i = Some (f, h) ->
  t < 300000 ->
  validateStatus status = true ->
  truthy body = false ->
  exists n,
    navigation (step (Settle i {| latency := Some t; reply := HttpReply status body |}) w)
      = Some n /\
    to n = "/results" /\
    error (ui (step (Settle i {| latency := Some t; reply := HttpReply status body |}) w))
      = error (ui w) /\
    ResultPage.ResultPage (nav_state n) = Ret ResultPage.fallback.
Proof.
  intros Hi Ht Hs Hfalsy. unfold step.
  rewrite (settle_resumes w i f h _ Hi).
  rewrite analyzeSwing_in_time by exact Ht. rewrite Hs.
  rewrite resume_resolved.
  eexists. split; [reflexivity|]. split; [reflexivity|]. split; [reflexivity|].
  apply result_page_fallback_falsy. exact Hfalsy.
Qed.

Lemma falsy_success_body_shows_fallback_witness :
  exists n,
    navigation (step (Settle 0 {| latency := Some 10; reply := HttpReply 200 JNull |})
                     submitted) = Some n /\
    ResultPage.ResultPage (nav_state n) = Ret ResultPage.fallback.
Proof.
  destruct (falsy_success_body_shows_fallback submitted 0 swing_file Right 10 200 JNull
              eq_refl eq_refl eq_refl eq_refl) as (n & Hnav & _ & _ & Hpage).
  exists n. split; assumption.
Defined.

(** ** When the call succeeds *)

(** X11: [analyzeSwing] resolves, and with the body as it is, exactly when
    the reply arrives within 300000 ms with a status from 200 to 299; a
    connection failure, any other status and any later reply reject it. *)
Theorem analyzeSwing_resolves_iff (f : File) (h : Hand) (net : Network) (v : JsVal) :
  analyzeSwing f h net = Resolved v <->
  exists t status,
    latency net = Some t /\ t < 300000 /\
    reply net = HttpReply status v /\ 200 <= status < 300.
Proof.
  split.
  - destruct net as [[t|] r].
    + destruct (Z.lt_ge_cases t 300000) as [Ht|Ht].
      * rewrite analyzeSwing_in_time by exact Ht.
        destruct r as [status body|]; [|discriminate].
        destruct (validateStatus status) eqn:Hs; [|discriminate].
        intros Heq. injection Heq as <-.
        exists t, status. cbn [latency reply].
        unfold validateStatus in Hs. apply andb_prop in Hs.
        destruct Hs as (Hlo & Hhi).
        apply Z.leb_le in Hlo. apply Z.ltb_lt in Hhi. auto.
      * rewrite analyzeSwing_late by exact Ht. discriminate.
    + rewrite analyzeSwing_late by exact I. discriminate.
  - intros (t & status & Hlat & Ht & Hreply & Hlo & Hhi).
    destruct net as [l r]. cbn [latency reply] in Hlat, Hreply. subst l r.
    rewrite analyzeSwing_in_time by exact Ht.
    unfold validateStatus.
    apply Z.leb_le in Hlo. apply Z.ltb_lt in Hhi. rewrite Hlo, Hhi. reflexivity.
Qed.

Lemma analyzeSwing_resolves_iff_witness :
  analyzeSwing swing_file Left
    {| latency := Some 299999; reply := HttpReply 299 (JStr "") |} = Resolved (JStr "").
Proof.
  apply (proj2 (analyzeSwing_resolves_iff swing_file Left
                  {| latency := Some 299999; reply := HttpReply 299 (JStr "") |}
                  (JStr ""))).
  exists 299999, 299. cbn. repeat split; lia.
Defined.

(** ** Selecting after a failure *)

(** X12: picking another file, or none, or another hand in a [Failed] state
    changes the selection only: the message stays until it is dismissed or
    a new attempt is submitted, and nothing is sent. *)
Theorem selecting_keeps_error (w : World) (m : JsVal) (f' : option File) (h' : Hand) :
  phase w = Failed m ->
  phase (step (User (onFileChange f')) w) = Failed m /\
  file (ui (step (User (onFileChange f')) w)) = f' /\
  hand (ui (step (User (onFileChange f')) w)) = hand (ui w) /\
  requests (step (User (onFileChange f')) w) = requests w /\
  phase (step (User (onHandChange h')) w) = Failed m /\
  hand (ui (step (User (onHandChange h')) w)) = h' /\
  file (ui (step (User (onHandChange h')) w)) = file (ui w) /\
  requests (step (User (onHandChange h')) w) = requests w.
Proof.
  unfold phase. intros Hphase.
  destruct (navigation w) as [n|] eqn:Hnav; [discriminate|].
  destruct (isLoading (ui w)) eqn:Hload; [discriminate|].
  unfold step, render. rewrite Hload. cbn.
  rewrite Hnav, Hload. repeat split; exact Hphase.
Qed.

Lemma selecting_keeps_error_witness :
  phase (step (User (onFileChange None)) failed_once) = Failed (JStr "Network Error") /\
  file (ui (step (User (onFileChange None)) failed_once)) = None.
Proof.
  pose proof (selecting_keeps_error failed_once (JStr "Network Error") None Left eq_refl)
    as (Hphase & Hfile & _).
  split; assumption.
Defined.

(** ** What the page sends *)

Lemma Forall_snoc {A : Type} (P : A -> Prop) (l : list A) (a : A) :
  Forall P l -> P a -> Forall P (l ++ [a])%list.
Proof.
  intros Hl Ha. apply Forall_app. split; [exact Hl|].
  constructor; [exact Ha | constructor].
Qed.

(** X13: everything the page ever sends is the request of [analyzeSwing]
    for some file and hand: a [POST] to ["/analyze"] under ["/api"],
    bounded by the timeout of 300000 ms, with the file and the hand as its
    two form fields. *)
Theorem only_analyze_requests (w : World) :
  reachable w ->
  Forall (fun r =>
            method r = POST /\ baseURL r = "/api" /\ url r = "/analyze" /\
            timeout r = 300000 /\
            exists f h, data r = Some [("video", FileField f);
                                       ("hand", TextField (hand_string h))])
         (requests w).
Proof.
  induction 1 as [| ev w _ IH].
  - constructor.
  - destruct (step_requests ev w) as [Hsame | (f & h & Hsent)].
    + rewrite Hsame. exact IH.
    + rewrite Hsent. apply Forall_snoc; [exact IH|].
      repeat split. exists f, h. reflexivity.
Qed.

Lemma only_analyze_requests_witness :
  Forall (fun r =>
            method r = POST /\ baseURL r = "/api" /\ url r = "/analyze" /\
            timeout r = 300000 /\
            exists f h, data r = Some [("video", FileField f);
                                       ("hand", TextField (hand_string h))])
         (requests (step (User onSubmit) failed_once)) /\
  length (requests (step (User onSubmit) failed_once)) = 2%nat.
Proof.
  split; [|reflexivity].
  exact (only_analyze_requests (step (User onSubmit) failed_once)
           (reachable_step _ _
              (reachable_step _ _
                 (reachable_step _ _ (reachable_step _ _ reachable_initial))))).
Defined.
